(** * Server-v1: startup orchestration and the server-monitoring page

    A shallow embedding of
      - [server/index.ts]: the API logging middleware, the bootstrap
        sequence that picks the storage backend, the default-admin step
        and [startServer];
      - the server-monitoring page ([ServerMonitoring]): the zod schema of
        the Zabbix configuration, the two mutations, the retry policy of
        the metrics query and the availability figures.

    Part I holds the embedding, Part II the properties. *)

From Stdlib Require Import ZArith QArith String List Bool Lia.
From Stdlib Require Import DecimalString Sorting.Sorted Sorting.Permutation.
From stdpp Require Import gmap strings list fin_maps.

Open Scope string_scope.

(* ===================================================================== *)
(** * Part I — the embedding                                              *)
(* ===================================================================== *)

(** ** JavaScript preliminaries *)

Module JS.

(** A call either returns or throws; the thrown value is kept as its
    [message]. *)
Inductive Result (A : Type) : Type :=
| Ok (a : A)
| Exn (msg : string).
Arguments Ok {A} a.
Arguments Exn {A} msg.

Definition is_ok {A} (r : Result A) : bool :=
  match r with Ok _ => true | Exn _ => false end.

(** Truthiness of a [string | undefined]: [undefined] and the empty string
    are falsy. *)
Definition truthy_string (s : option string) : bool :=
  match s with
  | Some s => negb (String.eqb s "")
  | None => false
  end.

(** Truthiness of an object reference that may be [null]/[undefined]. *)
Definition truthy_ref {A} (r : option A) : bool :=
  match r with Some _ => true | None => false end.

(** [hay.includes(needle)] *)
Definition includes (needle hay : string) : bool :=
  match String.index 0 needle hay with
  | Some _ => true
  | None => false
  end.

(** A state-and-exception monad: a computation runs on a state, changes it,
    and returns or throws.  [try_catch] keeps the state reached when the
    exception was raised, as a JavaScript [try]/[catch] does. *)
Section Monad.
Context {S : Type}.

Definition M (A : Type) : Type := S -> Result A * S.

Definition ret {A} (a : A) : M A := fun s => (Ok a, s).

Definition bind {A B} (m : M A) (k : A -> M B) : M B :=
  fun s =>
    match m s with
    | (Ok a, s') => k a s'
    | (Exn msg, s') => (Exn msg, s')
    end.

Definition throw {A} (msg : string) : M A := fun s => (Exn msg, s).

Definition try_catch {A} (m : M A) (handler : string -> M A) : M A :=
  fun s =>
    match m s with
    | (Ok a, s') => (Ok a, s')
    | (Exn msg, s') => handler msg s'
    end.

(** The outcome of an external call, as fixed by the environment. *)
Definition call {A} (r : Result A) : M A := fun s => (r, s).

Definition modify (f : S -> S) : M unit := fun s => (Ok tt, f s).

Definition get : M S := fun s => (Ok s, s).
End Monad.
Arguments M S A : clear implicits.

Module Notations.
Notation "x <- m ;; k" := (bind m (fun x => k))
  (at level 100, m at next level, right associativity).
Notation "m ;;; k" := (bind m (fun _ => k))
  (at level 100, right associativity).
End Notations.

End JS.

Import JS JS.Notations.

(** ** The bootstrap sequence of [server/index.ts] *)

Module Bootstrap.

(** Object identities. *)
Definition loc : Type := positive.

(** What a property of the storage object holds. *)
Inductive Closure : Type :=
| MemMethod (name : string)
    (** the method the handle was created with (in-memory backend) *)
| BoundMethod (self : loc) (name : string).
    (** [databaseStorage[name].bind(databaseStorage)] *)

Inductive Value : Type :=
| VFun (c : Closure)
| VData.

Abbreviation Object := (gmap string Value).
Abbreviation Heap := (gmap loc Object).

(** The module-level [storage] import: one object, never reassigned. *)
Definition storage : loc := 1%positive.

(** Lines written to the console. *)
Inductive Line : Type :=
| StartingInitialization
| DirectTestResult (verified : bool)
| VmTableAccessible
| VmTableMissing
| DirectTestFailed (msg : string)
| ProceedingWithDatabase
| UrlConfigured (yes : bool)
| InstanceAvailable (yes : bool)
| ConnectionFlags (fresh declared verified : bool)
| RunningVerification
| InitializingPostgres
| StorageInitialized
| DataWillPersist
| InitStorageFailed (msg : string)
| MigrationsFailed (msg : string)
| FallingBackToMemory
| PostgresNotAvailable
| DataWillNotPersist
| SetUpPostgresHint.

(** The database handle exported by [./db], seen through the two queries
    the bootstrap sends.  [select1] is the outcome of
    [SELECT 1 as connection_test] (a failure of the dynamic import of the
    query builder lands in the same [catch]); the result may be falsy
    ([None]), may lack [rows] ([Some None]) or carry [n] rows. *)
Record DbHandle : Type := mkDb {
  select1 : Result (option (option nat));
  countVmMonitoring : Result unit
}.

(** Everything the bootstrap reads from outside. *)
Record Env : Type := mkEnv {
  DATABASE_URL : option string;            (* process.env.DATABASE_URL *)
  databaseConnected : bool;                (* import at entry *)
  freshConnectionStatus : bool;            (* import after the delay *)
  freshDb : option DbHandle;               (* [db] after the delay *)
  runMigrations : Result unit;
  initializeDatabase : Result unit;
  newDatabaseStorage : Result unit;        (* the constructor *)
  (** [Object.getOwnPropertyNames(DatabaseStorage.prototype)], each name
      with [typeof databaseStorage[name] === 'function']. *)
  DatabaseStorage_prototype : list (string * bool)
}.

Record State : Type := mkState {
  heap : Heap;
  usingDatabase : bool;
  console : list Line
}.

Definition log (l : Line) : M State unit :=
  modify (fun s => mkState (heap s) (usingDatabase s) (console s ++ [l])).

Definition set_usingDatabase (b : bool) : M State unit :=
  modify (fun s => mkState (heap s) b (console s)).

(** [testResult && testResult.rows && testResult.rows.length > 0] *)
Definition rows_nonempty (testResult : option (option nat)) : bool :=
  match testResult with
  | Some (Some n) => Nat.ltb 0 n
  | _ => false
  end.

(** Lines 77-99: the direct probe and, inside it, the table probe. *)
Definition directProbe (e : Env) : M State bool :=
  match truthy_string (DATABASE_URL e), freshDb e with
  | true, Some db =>
      try_catch
        (testResult <- call (select1 db) ;;
         let actualConnectionVerified := rows_nonempty testResult in
         log (DirectTestResult actualConnectionVerified) ;;;
         (if actualConnectionVerified
          then try_catch
                 (call (countVmMonitoring db) ;;; log VmTableAccessible)
                 (fun _ => log VmTableMissing)
          else ret tt) ;;;
         ret actualConnectionVerified)
        (fun msg => log (DirectTestFailed msg) ;;; ret false)
  | _, _ => ret false
  end.

(** Line 102: the condition of the [if]. *)
Definition selectDurable (fresh declared verified : bool)
                         (url : option string) (db : option DbHandle) : bool :=
  (fresh || declared || verified) && truthy_string url && truthy_ref db.

(** Lines 124-128: one round of the [forEach]. *)
Definition rebind (inst : loc) (obj : Object) (p : string * bool) : Object :=
  let '(name, isFunction) := p in
  if negb (String.eqb name "constructor") && isFunction
  then <[name := VFun (BoundMethod inst name)]> obj
  else obj.

Definition rebindAll (proto : list (string * bool)) (inst : loc)
                     (obj : Object) : Object :=
  fold_left (rebind inst) proto obj.

(** [new DatabaseStorage()]: a new object when the constructor returns. *)
Definition construct (e : Env) : M State loc :=
  call (newDatabaseStorage e) ;;;
  s <- get ;;
  let inst := fresh (dom (heap s)) in
  modify (fun s => mkState (<[inst := ∅]> (heap s)) (usingDatabase s) (console s)) ;;;
  ret inst.

Definition assignMethods (e : Env) (inst : loc) : M State unit :=
  modify (fun s =>
    mkState (alter (rebindAll (DatabaseStorage_prototype e) inst) storage (heap s))
            (usingDatabase s) (console s)).

(** Lines 116-138. *)
Definition initStorage (e : Env) : M State unit :=
  try_catch
    (call (initializeDatabase e) ;;;
     log InitializingPostgres ;;;
     databaseStorage <- construct e ;;
     assignMethods e databaseStorage ;;;
     set_usingDatabase true ;;;
     log StorageInitialized ;;;
     log DataWillPersist)
    (fun msg =>
       log (InitStorageFailed msg) ;;;
       log FallingBackToMemory ;;;
       set_usingDatabase false).

(** Lines 111-144. *)
Definition attemptDurable (e : Env) : M State unit :=
  try_catch
    (log RunningVerification ;;;
     call (runMigrations e) ;;;
     initStorage e)
    (fun msg =>
       log (MigrationsFailed msg) ;;;
       log FallingBackToMemory ;;;
       set_usingDatabase false).

(** Lines 63-150, the timers left out. *)
Definition bootstrapM (e : Env) : M State unit :=
  log StartingInitialization ;;;
  actualConnectionVerified <- directProbe e ;;
  if selectDurable (freshConnectionStatus e) (databaseConnected e)
                   actualConnectionVerified (DATABASE_URL e) (freshDb e)
  then
    log ProceedingWithDatabase ;;;
    log (UrlConfigured (truthy_string (DATABASE_URL e))) ;;;
    log (InstanceAvailable (truthy_ref (freshDb e))) ;;;
    log (ConnectionFlags (freshConnectionStatus e) (databaseConnected e)
                         actualConnectionVerified) ;;;
    attemptDurable e
  else
    log PostgresNotAvailable ;;;
    log DataWillNotPersist ;;;
    log SetUpPostgresHint ;;;
    set_usingDatabase false.

(** The state the bootstrap starts from: [let usingDatabase = false]. *)
Definition initial (h : Heap) : State := mkState h false [].

Definition bootstrap (e : Env) (h : Heap) : Result unit * State :=
  bootstrapM e (initial h).

(** The signal computed by the probe. *)
Definition actualConnectionVerified (e : Env) : bool :=
  match fst (directProbe e (initial ∅)) with
  | Ok v => v
  | Exn _ => false
  end.

(** The lines the probe writes. *)
Definition probeLines (e : Env) : list Line :=
  console (snd (directProbe e (initial ∅))).

(** What the console holds when the [if] of line 102 is reached, and the
    lines its first branch starts with. *)
Definition preamble (e : Env) : list Line :=
  [StartingInitialization] ++ probeLines e.

Definition durableLines (e : Env) : list Line :=
  [ ProceedingWithDatabase;
    UrlConfigured (truthy_string (DATABASE_URL e));
    InstanceAvailable (truthy_ref (freshDb e));
    ConnectionFlags (freshConnectionStatus e) (databaseConnected e)
                    (actualConnectionVerified e) ].

(** Which backend the [if] of line 102 goes for. *)
Inductive Backend : Type := InMemory | Durable.

Definition selected (e : Env) : Backend :=
  if selectDurable (freshConnectionStatus e) (databaseConnected e)
                   (actualConnectionVerified e) (DATABASE_URL e) (freshDb e)
  then Durable else InMemory.

(** Calling [ref[name](…)]: which method body runs, and on which [this]. *)
Inductive Target : Type :=
| RunsInMemory (name : string)
| RunsOnInstance (self : loc) (name : string).

Definition invoke (h : Heap) (ref : loc) (name : string) : option Target :=
  match h !! ref with
  | Some obj =>
      match obj !! name with
      | Some (VFun (MemMethod n)) => Some (RunsInMemory n)
      | Some (VFun (BoundMethod self n)) => Some (RunsOnInstance self n)
      | _ => None
      end
  | None => None
  end.

(** Replacing the answer of the table probe. *)
Definition with_vm_probe (e : Env) (r : Result unit) : Env :=
  mkEnv (DATABASE_URL e) (databaseConnected e) (freshConnectionStatus e)
        (match freshDb e with
         | Some db => Some (mkDb (select1 db) r)
         | None => None
         end)
        (runMigrations e) (initializeDatabase e) (newDatabaseStorage e)
        (DatabaseStorage_prototype e).

(** Sample surroundings: a reachable database whose class has the two
    user operations, and a handle created by the in-memory backend. *)
Definition sample_db : DbHandle := mkDb (Ok (Some (Some 1))) (Ok tt).

Definition sample_env : Env :=
  mkEnv (Some "postgres://localhost/srph") true true (Some sample_db)
        (Ok tt) (Ok tt) (Ok tt)
        [ ("constructor", true); ("getUserByUsername", true);
          ("createUser", true) ].

Definition sample_env_failing_migration : Env :=
  mkEnv (Some "postgres://localhost/srph") true true (Some sample_db)
        (Exn "relation does not exist") (Ok tt) (Ok tt)
        [ ("constructor", true); ("getUserByUsername", true);
          ("createUser", true) ].

Definition sample_handle : Object :=
  <["getUserByUsername" := VFun (MemMethod "getUserByUsername")]>
    (<["createUser" := VFun (MemMethod "createUser")]> ∅).

Definition sample_heap : Heap := {[ storage := sample_handle ]}.

End Bootstrap.

(** ** The external event logger, seen from its call sites *)

Module Logger.

(** What a call asks the logger to record (payloads cut down to the fields
    the call sites pass as literals). *)
Inductive Entry : Type :=
| System (event : string)
| ApiRequest (method path : string) (statusCode duration : nat)
| Lifecycle (event : string)
| Heartbeat
| Critical (message origin : string).

(** [./logger] is outside the sources: the logger is an oracle telling, for
    each entry, whether the call returns or throws. *)
Definition ExternalLogger : Type := Entry -> Result unit.

Definition healthy : ExternalLogger := fun _ => Ok tt.

Definition broken (msg : string) : ExternalLogger := fun _ => Exn msg.

End Logger.

Import Logger.

(** ** The default-admin step (lines 152-191) *)

Module Admin.

Record Permission : Type := mkPermission {
  view : bool;
  edit : bool;
  add : bool
}.

Record InsertUser : Type := mkInsertUser {
  username : string;
  password : string;
  firstName : string;
  lastName : string;
  email : string;
  isAdmin : bool;
  department : string;
  permissions : list (string * Permission)
}.

Record User : Type := mkUser {
  id : nat;
  fields : InsertUser
}.

(** The two operations of the storage handle the step calls.  The handle
    forwards them to the backend bound to it, of state [B]. *)
Class IStorage (B : Type) : Type := {
  getUserByUsername : string -> M B (option User);
  createUser : InsertUser -> M B User
}.

(** Modelled from the spec: the storage backend behind the handle
    ([./storage] and [./database-storage] are not among the sources).  The
    spec gives [getUserByUsername(username) -> User | absent] and
    [createUser(fields) -> User]; the backend keeps the users it was given,
    finds one by its username and gives each new user the next id. *)
Record Store : Type := mkStore {
  users : list User;
  currentId : nat
}.

Definition has_username (name : string) (u : User) : bool :=
  String.eqb (username (fields u)) name.

#[export] Instance Store_IStorage : IStorage Store := {
  getUserByUsername name := fun b => (Ok (List.find (has_username name) (users b)), b);
  createUser f := fun b =>
    let u := mkUser (currentId b) f in
    (Ok u, mkStore (users b ++ [u]) (S (currentId b)))
}.

(** A backend whose calls all fail (the database went away). *)
Definition Unreachable : Type := unit.

#[export] Instance Unreachable_IStorage : IStorage Unreachable := {
  getUserByUsername _ := throw "connection refused";
  createUser _ := throw "connection refused"
}.

Inductive Line : Type :=
| CheckingForAdmin
| CreatingAdmin
| AdminCreated (inDatabase : bool)
| AdminAlreadyExists (inDatabase : bool)
| AdminInitFailed (msg : string).

Record World (B : Type) : Type := mkWorld {
  backend : B;
  console : list Line;
  written : list Entry
}.
Arguments mkWorld {B} _ _ _.
Arguments backend {B} _.
Arguments console {B} _.
Arguments written {B} _.

Section Step.
Context {B : Type} `{IStorage B}.

Definition log (l : Line) : M (World B) unit :=
  modify (fun w => mkWorld (backend w) (console w ++ [l]) (written w)).

(** A call through the storage handle. *)
Definition on_storage {A} (op : M B A) : M (World B) A :=
  fun w =>
    let '(r, b) := op (backend w) in
    (r, mkWorld b (console w) (written w)).

(** A call of the external logger: the entry is written when the call
    returns. *)
Definition external (lg : ExternalLogger) (e : Entry) : M (World B) unit :=
  call (lg e) ;;;
  modify (fun w => mkWorld (backend w) (console w) (written w ++ [e])).

Definition full : Permission := mkPermission true true true.

Definition defaultAdmin : InsertUser :=
  mkInsertUser "admin" "admin123" "Admin" "User" "admin@example.com" true "IT"
    [ ("assets", full); ("components", full); ("accessories", full);
      ("consumables", full); ("licenses", full); ("users", full);
      ("reports", full); ("vmMonitoring", full); ("networkDiscovery", full);
      ("bitlockerKeys", full); ("admin", full) ].

(** The body of the [setTimeout] callback. *)
Definition ensureAdmin (lg : ExternalLogger) (usingDatabase : bool)
  : M (World B) unit :=
  try_catch
    (log CheckingForAdmin ;;;
     adminExists <- on_storage (getUserByUsername "admin") ;;
     match adminExists with
     | None =>
         log CreatingAdmin ;;;
         on_storage (createUser defaultAdmin) ;;;
         log (AdminCreated usingDatabase) ;;;
         external lg (System "user_creation")
     | Some _ =>
         log (AdminAlreadyExists usingDatabase)
     end)
    (fun msg =>
       log (AdminInitFailed msg) ;;;
       external lg (System "user_creation_error")).

(** The backend the step leaves behind. *)
Definition after_ensureAdmin (lg : ExternalLogger) (usingDatabase : bool)
                             (w : World B) : World B :=
  snd (ensureAdmin lg usingDatabase w).

End Step.

(** The accounts carrying the sentinel username. *)
Definition admins (b : Store) : list User :=
  List.filter (has_username "admin") (users b).

Definition categories : list string :=
  [ "assets"; "components"; "accessories"; "consumables"; "licenses";
    "users"; "reports"; "vmMonitoring"; "networkDiscovery"; "bitlockerKeys";
    "admin" ].

Definition full_matrix (ps : list (string * Permission)) : Prop :=
  List.map fst ps = categories /\
  List.Forall (fun p => snd p = mkPermission true true true) ps.

End Admin.

(** ** The HTTP side of [server/index.ts] *)

Module Server.

Inductive ErrLine : Type :=
| FailedToLogApiRequest (msg : string)
| HeartbeatLoggingFailed (msg : string)
| FailedToStartServer (msg : string).

Inductive OutLine : Type :=
| ServerRunning
| DatabaseKind (postgres : bool)
| LogsDirectory.

Record Process : Type := mkProcess {
  viteLog : list string;           (* lines passed to [log] of [./vite] *)
  stdout : list OutLine;
  stderr : list ErrLine;           (* [console.error] *)
  written : list Entry;            (* entries the external logger took *)
  listening : option nat           (* the port of [server.listen] *)
}.

Definition vite_log (l : string) : M Process unit :=
  modify (fun p => mkProcess (viteLog p ++ [l]) (stdout p) (stderr p)
                             (written p) (listening p)).

Definition console_log (l : OutLine) : M Process unit :=
  modify (fun p => mkProcess (viteLog p) (stdout p ++ [l]) (stderr p)
                             (written p) (listening p)).

Definition console_error (l : ErrLine) : M Process unit :=
  modify (fun p => mkProcess (viteLog p) (stdout p) (stderr p ++ [l])
                             (written p) (listening p)).

Definition external (lg : ExternalLogger) (e : Entry) : M Process unit :=
  call (lg e) ;;;
  modify (fun p => mkProcess (viteLog p) (stdout p) (stderr p)
                             (written p ++ [e]) (listening p)).

Definition listen (port : nat) : M Process unit :=
  modify (fun p => mkProcess (viteLog p) (stdout p) (stderr p)
                             (written p) (Some port)).

Definition PORT : nat := 5000.

Section Middleware.
(** Number formatting and [JSON.stringify] are the platform's. *)
Variable show : nat -> string.
Variable Json : Type.
Variable JSON_stringify : Json -> string.

Record Request : Type := mkRequest {
  method : string;
  path : string
}.

(** Lines 30-37: the line handed to [log]. *)
Definition logLine (req : Request) (statusCode duration : nat)
                   (capturedJsonResponse : option Json) : string :=
  let l := method req ++ " " ++ path req ++ " " ++ show statusCode
           ++ " in " ++ show duration ++ "ms" in
  let l := match capturedJsonResponse with
           | Some body => l ++ " :: " ++ JSON_stringify body
           | None => l
           end in
  if Nat.ltb 80 (String.length l)
  then String.substring 0 79 l ++ "…"
  else l.

(** Lines 27-58: the handler of the response's [finish] event. *)
Definition onFinish (lg : ExternalLogger) (req : Request)
                    (statusCode duration : nat)
                    (capturedJsonResponse : option Json) : M Process unit :=
  if String.prefix "/api" (path req) then
    vite_log (logLine req statusCode duration capturedJsonResponse) ;;;
    try_catch
      (external lg (ApiRequest (method req) (path req) statusCode duration))
      (fun logError => console_error (FailedToLogApiRequest logError))
  else ret tt.

End Middleware.

(** What [startServer] calls besides the logger. *)
Record StartEnv : Type := mkStartEnv {
  DATABASE_URL : option string;
  production : bool;                    (* NODE_ENV === 'production' *)
  registerRoutes : Result unit;
  setupVite : Result unit;
  serveStatic : Result unit
}.

(** Lines 194-221. *)
Definition startServer (lg : ExternalLogger) (e : StartEnv) : M Process unit :=
  call (registerRoutes e) ;;;
  (if negb (production e) then call (setupVite e) else call (serveStatic e)) ;;;
  external lg (System "server_startup") ;;;
  console_log ServerRunning ;;;
  console_log (DatabaseKind (truthy_string (DATABASE_URL e))) ;;;
  console_log LogsDirectory ;;;
  listen PORT.

(** Lines 258-267: one tick of the heartbeat timer. *)
Definition heartbeat (lg : ExternalLogger) : M Process unit :=
  try_catch (external lg Heartbeat)
            (fun error => console_error (HeartbeatLoggingFailed error)).

(** Lines 242-294: [startServer().then(…).catch(…)], the handlers that
    [then] registers left out. *)
Definition main (lg : ExternalLogger) (e : StartEnv) : M Process unit :=
  try_catch
    (startServer lg e ;;;
     vite_log "serving on port 5000" ;;;
     external lg (Lifecycle "startup"))
    (fun error =>
       console_error (FailedToStartServer error) ;;;
       external lg (Critical "Server startup failed" "startup")).

Definition fresh_process : Process := mkProcess [] [] [] [] None.

Definition good_env : StartEnv :=
  mkStartEnv None false (Ok tt) (Ok tt) (Ok tt).

(** A logger that fails on system events only. *)
Definition failing_on_system (msg : string) : ExternalLogger :=
  fun e => match e with System _ => Exn msg | _ => Ok tt end.

End Server.

(** ** The server-monitoring page *)

Module Monitoring.

(** A JavaScript number: the three values that are not finite, or a finite
    one (rounding is not modelled: finite numbers are rationals). *)
Inductive Num : Type :=
| NaN
| PosInf
| NegInf
| Fin (q : Q).

Record ZabbixConfig : Type := mkConfig {
  url : string;
  username : string;
  password : string;
  apiVersion : string;
  autoRefresh : bool;
  refreshInterval : Num       (* the field is read [valueAsNumber] *)
}.

Inductive Issue : Type :=
| InvalidUrl
| UsernameRequired
| PasswordRequired
| IntervalNotANumber
| IntervalTooSmall
| IntervalTooBig.

(** [z.number().min(30).max(600)]: [NaN] is no number for zod; the bounds
    are inclusive. *)
Definition check_refreshInterval (n : Num) : list Issue :=
  match n with
  | NaN => [IntervalNotANumber]
  | PosInf => [IntervalTooBig]
  | NegInf => [IntervalTooSmall]
  | Fin q =>
      (if Qle_bool 30 q then [] else [IntervalTooSmall]) ++
      (if Qle_bool q 600 then [] else [IntervalTooBig])
  end.

(** [z.string().min(1, …)] *)
Definition check_required (issue : Issue) (s : string) : list Issue :=
  if Nat.leb 1 (String.length s) then [] else [issue].

Inductive Endpoint : Type :=
| TestConnection      (* POST /api/server-monitoring/test-connection *)
| Metrics.            (* POST /api/server-monitoring/metrics *)

Record Request : Type := mkRequest {
  endpoint : Endpoint;
  body : string
}.

(** The parsed body of a response, cut down to what the page reads. *)
Record Body : Type := mkBody {
  message : option string;
  hostCount : option nat
}.

Record Response : Type := mkResponse {
  ok : bool;
  json : Result Body         (* [response.json()] *)
}.

(** The network and the server behind it: [fetch] rejects or resolves. *)
Definition Network : Type := Request -> Result Response.

Inductive Toast : Type :=
| ConnectionSuccessful (hostCount : option nat)
| ConnectionFailed (msg : string)
| ConfigurationSaved
| ConfigurationFailed (msg : string).

Record Client : Type := mkClient {
  localStorage : gmap string string;
  requests : list Request;          (* the [fetch] calls made so far *)
  toasts : list Toast;
  isConfigured : bool;
  showSettings : bool;
  formErrors : list Issue;          (* [form.formState.errors] *)
  invalidations : nat               (* [queryClient.invalidateQueries] *)
}.

Definition fetch (net : Network) (r : Request) : M Client Response :=
  modify (fun c => mkClient (localStorage c) (requests c ++ [r]) (toasts c)
                            (isConfigured c) (showSettings c) (formErrors c)
                            (invalidations c)) ;;;
  call (net r).

Definition setItem (key value : string) : M Client unit :=
  modify (fun c => mkClient (<[key := value]> (localStorage c)) (requests c)
                            (toasts c) (isConfigured c) (showSettings c)
                            (formErrors c) (invalidations c)).

Definition toast (t : Toast) : M Client unit :=
  modify (fun c => mkClient (localStorage c) (requests c) (toasts c ++ [t])
                            (isConfigured c) (showSettings c) (formErrors c)
                            (invalidations c)).

Definition setIsConfigured (b : bool) : M Client unit :=
  modify (fun c => mkClient (localStorage c) (requests c) (toasts c) b
                            (showSettings c) (formErrors c) (invalidations c)).

Definition setShowSettings (b : bool) : M Client unit :=
  modify (fun c => mkClient (localStorage c) (requests c) (toasts c)
                            (isConfigured c) b (formErrors c) (invalidations c)).

Definition setFormErrors (l : list Issue) : M Client unit :=
  modify (fun c => mkClient (localStorage c) (requests c) (toasts c)
                            (isConfigured c) (showSettings c) l
                            (invalidations c)).

Definition invalidateQueries : M Client unit :=
  modify (fun c => mkClient (localStorage c) (requests c) (toasts c)
                            (isConfigured c) (showSettings c) (formErrors c)
                            (S (invalidations c))).

(** [error.message || fallback] *)
Definition message_or (m : option string) (fallback : string) : string :=
  match m with
  | Some s => if String.eqb s "" then fallback else s
  | None => fallback
  end.

Definition config_key : string := "zabbix-server-config".

Section Page.
(** [z.string().url()] rests on the platform's URL parser and
    [JSON.stringify] is the platform's. *)
Variable isUrl : string -> bool.
Variable JSON_stringify : ZabbixConfig -> string.

(** Lines 39-46: the issues zod reports for the form's values. *)
Definition zabbixConfigSchema (c : ZabbixConfig) : list Issue :=
  (if isUrl (url c) then [] else [InvalidUrl]) ++
  check_required UsernameRequired (username c) ++
  check_required PasswordRequired (password c) ++
  check_refreshInterval (refreshInterval c).

Definition valid (c : ZabbixConfig) : bool :=
  match zabbixConfigSchema c with
  | [] => true
  | _ => false
  end.

(** Lines 126-140. *)
Definition testConnection_mutationFn (net : Network) (config : ZabbixConfig)
  : M Client Body :=
  response <- fetch net (mkRequest TestConnection (JSON_stringify config)) ;;
  if negb (ok response) then
    error <- call (json response) ;;
    throw (message_or (message error) "Connection test failed")
  else
    call (json response).

(** Lines 125-154: [testConnectionMutation.mutate]. *)
Definition testConnectionMutation_mutate (net : Network) (config : ZabbixConfig)
  : M Client unit :=
  try_catch
    (data <- testConnection_mutationFn net config ;;
     toast (ConnectionSuccessful (hostCount data)))
    (fun error => toast (ConnectionFailed error)).

(** Lines 158-175. *)
Definition saveConfig_mutationFn (net : Network) (config : ZabbixConfig)
  : M Client ZabbixConfig :=
  testResponse <- fetch net (mkRequest TestConnection (JSON_stringify config)) ;;
  if negb (ok testResponse) then
    error <- call (json testResponse) ;;
    throw (message_or (message error) "Connection test failed")
  else
    setItem config_key (JSON_stringify config) ;;;
    ret config.

(** Lines 157-193: [saveConfigMutation.mutate]. *)
Definition saveConfigMutation_mutate (net : Network) (config : ZabbixConfig)
  : M Client unit :=
  try_catch
    (saveConfig_mutationFn net config ;;;
     setIsConfigured true ;;;
     setShowSettings false ;;;
     toast ConfigurationSaved ;;;
     invalidateQueries)
    (fun error => toast (ConfigurationFailed error)).

(** Lines 249-251. *)
Definition handleSubmit (net : Network) (data : ZabbixConfig) : M Client unit :=
  saveConfigMutation_mutate net data.

(** Line 326: [form.handleSubmit(handleSubmit)] runs the resolver and calls
    [handleSubmit] only on values without issues. *)
Definition onSubmit (net : Network) (values : ZabbixConfig) : M Client unit :=
  match zabbixConfigSchema values with
  | [] => setFormErrors [] ;;; handleSubmit net values
  | issues => setFormErrors issues
  end.

(** Line 404: the [onClick] of the Test Connection button, on
    [form.getValues()]. *)
Definition onClickTestConnection (net : Network) (values : ZabbixConfig)
  : M Client unit :=
  testConnectionMutation_mutate net values.

(** What the user can do with the settings form. *)
Inductive Action : Type :=
| Submit
| ClickTestConnection.

Definition perform (a : Action) (net : Network) (values : ZabbixConfig)
  : M Client unit :=
  match a with
  | Submit => onSubmit net values
  | ClickTestConnection => onClickTestConnection net values
  end.

End Page.

Definition fresh_client : Client := mkClient ∅ [] [] false false [] 0.

(** *** The metrics query: retry policy *)

(** Lines 238-245. *)
Definition retry (failureCount : nat) (error_message : string) : bool :=
  if includes "Authentication" error_message || includes "401" error_message
  then false
  else Nat.ltb failureCount 3.

(** The test [retry] starts with. *)
Definition auth_error (msg : string) : bool :=
  includes "Authentication" msg || includes "401" msg.

(** Line 246: [Math.min(1000 * 2 ** attemptIndex, 30000)], milliseconds. *)
Definition retryDelay (attemptIndex : nat) : Z :=
  Z.min (1000 * 2 ^ Z.of_nat attemptIndex) 30000.

(** The retry loop of the query library that [useQuery] hands [retry] and
    [retryDelay] to: after a failure it asks [retry] with the number of
    failures before this one, sleeps [retryDelay] of that number and calls
    the query function again; otherwise the error reaches the caller.
    [queryFn i] is the outcome of the call made after [i] failures.  The
    loop returns the outcome and the delays it slept, one per retry. *)
Fixpoint retryer {A} (fuel : nat) (queryFn : nat -> Result A)
                 (failureCount : nat) : option (Result A * list Z) :=
  match fuel with
  | O => None
  | S fuel =>
      match queryFn failureCount with
      | Ok data => Some (Ok data, [])
      | Exn error =>
          if retry failureCount error then
            match retryer fuel queryFn (S failureCount) with
            | Some (r, delays) => Some (r, retryDelay failureCount :: delays)
            | None => None
            end
          else Some (Exn error, [])
      end
  end.

(** *** The availability figures *)

(** The numbers of [ServerMetrics]; the query function fills each with
    [data.field || 0], so none of them is [NaN]. *)
Record ServerMetrics : Type := mkMetrics {
  totalHosts : Q;
  availableHosts : Q;
  unavailableHosts : Q;
  avgCpuUsage : Q;
  avgMemoryUsage : Q
}.

Definition is_zero (q : Q) : bool := Qeq_bool q 0.

(** [a / b] on finite numbers. *)
Definition js_div (a b : Q) : Num :=
  if is_zero b then
    if is_zero a then NaN
    else if Qle_bool 0 a then PosInf else NegInf
  else Fin (a / b).

(** [x * k] for a finite [k > 0]. *)
Definition js_times (x : Num) (k : Q) : Num :=
  match x with
  | Fin q => Fin (q * k)
  | other => other
  end.

(** [x || d] on a number that may be [undefined]. *)
Definition or_default (x : option Q) (d : Q) : Q :=
  match x with
  | Some q => if is_zero q then d else q
  | None => d
  end.

(** Line 716: the value of the availability bar. *)
Definition availabilityBar (metrics : option ServerMetrics) : Num :=
  match metrics with
  | Some m =>
      if negb (is_zero (totalHosts m))
      then js_times (js_div (availableHosts m) (totalHosts m)) 100
      else Fin 0
  | None => Fin 0
  end.

(** Line 948: the availability of the summary, before [toFixed(1)]. *)
Definition availabilitySummary (metrics : option ServerMetrics) : Num :=
  if is_zero (or_default (option_map totalHosts metrics) 0)
  then Fin 0
  else js_times (js_div (or_default (option_map availableHosts metrics) 0)
                        (or_default (option_map totalHosts metrics) 1))
                100.

(** The same quotient without the guard. *)
Definition unguarded (m : ServerMetrics) : Num :=
  js_times (js_div (availableHosts m) (totalHosts m)) 100.

(** A refresh interval that is no number between 30 and 600. *)
Definition outside_range (n : Num) : Prop :=
  match n with
  | Fin q => (q < 30 \/ 600 < q)%Q
  | _ => True
  end.

(** The answer of the network to a request says the test passed. *)
Definition test_succeeds (net : Network) (r : Request) : bool :=
  match net r with
  | Ok response => ok response
  | Exn _ => false
  end.

(** Sample surroundings for the page. *)
Definition sample_isUrl (s : string) : bool :=
  String.prefix "http://" s || String.prefix "https://" s.

Definition sample_stringify (c : ZabbixConfig) : string :=
  "{url:" ++ url c ++ ",username:" ++ username c ++ "}".

Definition sample_config (interval : Q) : ZabbixConfig :=
  mkConfig "https://zabbix.example.com/zabbix" "Admin" "zabbix" "2.4" true
           (Fin interval).

Definition accepting : Network :=
  fun _ => Ok (mkResponse true (Ok (mkBody None (Some 3)))).

Definition refusing : Network :=
  fun _ => Ok (mkResponse false (Ok (mkBody (Some "Authentication failed") None))).

Definition always_failing (msg : string) : nat -> Result ServerMetrics :=
  fun _ => Exn msg.

End Monitoring.

(** ** [getLocalIP] (lines 223-235) *)

Module Interfaces.

(** One address of a network interface, as [os.networkInterfaces] gives it. *)
Record NetworkInterfaceInfo : Type := mkInfo {
  address : string;
  family : string;
  internal : bool
}.

(** The object [networkInterfaces()] returns: its keys in the order of
    [Object.keys], each with its list of addresses ([None] when the value
    is [undefined]). *)
Definition NetworkInterfaces : Type :=
  list (string * option (list NetworkInterfaceInfo)).

(** [net.family === 'IPv4' && !net.internal] *)
Definition external_ipv4 (net : NetworkInterfaceInfo) : bool :=
  String.eqb (family net) "IPv4" && negb (internal net).

(** The inner loop: the first address of one interface that qualifies. *)
Fixpoint scan (nets : list NetworkInterfaceInfo) : option string :=
  match nets with
  | [] => None
  | net :: rest => if external_ipv4 net then Some (address net) else scan rest
  end.

(** [interfaces[name] || []] *)
Definition or_empty (nets : option (list NetworkInterfaceInfo))
  : list NetworkInterfaceInfo :=
  match nets with
  | Some l => l
  | None => []
  end.

Fixpoint getLocalIP (interfaces : NetworkInterfaces) : string :=
  match interfaces with
  | [] => "127.0.0.1"
  | (name, nets) :: rest =>
      match scan (or_empty nets) with
      | Some a => a
      | None => getLocalIP rest
      end
  end.

(** All addresses, interface after interface. *)
Definition all_addresses (interfaces : NetworkInterfaces)
  : list NetworkInterfaceInfo :=
  List.concat (List.map (fun p => or_empty (snd p)) interfaces).

Definition sample_interfaces : NetworkInterfaces :=
  [ ("lo", Some [mkInfo "127.0.0.1" "IPv4" true; mkInfo "::1" "IPv6" true]);
    ("eth0", Some [mkInfo "fe80::1" "IPv6" false;
                   mkInfo "192.168.1.20" "IPv4" false]);
    ("wlan0", Some [mkInfo "10.0.0.7" "IPv4" false]) ].

End Interfaces.

(** ** The heartbeat timer and the termination signals (lines 257-278) *)

Module Shutdown.
Import Server.

(** The process together with the heartbeat timer: [true] while the
    interval set at line 258 has not been cleared. *)
Record Runtime : Type := mkRuntime {
  process : Process;
  heartbeatInterval : bool
}.

Definition in_process {A} (m : M Process A) : M Runtime A :=
  fun r =>
    let '(a, p) := m (process r) in
    (a, mkRuntime p (heartbeatInterval r)).

Definition clearInterval : M Runtime unit :=
  modify (fun r => mkRuntime (process r) false).

(** Lines 270-278: the handler of SIGTERM and the one of SIGINT (they
    differ in the reason they pass to the logger). *)
Definition onSignal (lg : ExternalLogger) : M Runtime unit :=
  in_process (external lg (Lifecycle "shutdown")) ;;;
  clearInterval.

(** The timer calls the heartbeat while the interval is set. *)
Definition onTick (lg : ExternalLogger) : M Runtime unit :=
  fun r =>
    if heartbeatInterval r then in_process (heartbeat lg) r else (Ok tt, r).

Inductive Event : Type :=
| Tick
| Signal.

Definition handle (lg : ExternalLogger) (ev : Event) : M Runtime unit :=
  match ev with
  | Tick => onTick lg
  | Signal => onSignal lg
  end.

(** The events of a run, one after the other; an exception of a handler
    ends that handler only. *)
Fixpoint run (lg : ExternalLogger) (evs : list Event) (r : Runtime) : Runtime :=
  match evs with
  | [] => r
  | ev :: rest => run lg rest (snd (handle lg ev r))
  end.

(** [startServer] gets through the calls before the logger. *)
Definition setup_ok (e : StartEnv) : bool :=
  is_ok (registerRoutes e) &&
  is_ok (if production e then serveStatic e else setupVite e).

(** The error [startServer] throws when one of them fails. *)
Definition setup_error (e : StartEnv) : string :=
  match registerRoutes e with
  | Exn msg => msg
  | Ok _ =>
      match (if production e then serveStatic e else setupVite e) with
      | Exn msg => msg
      | Ok _ => ""
      end
  end.

End Shutdown.

(** ** A backend that records the calls made through the handle *)

Module Scripted.
Import Admin.

Inductive Call : Type :=
| Lookup (username : string)
| Create (fields : InsertUser).

(** The answers the backend will give, and the calls it has received. *)
Record Script : Type := mkScript {
  lookupAnswer : Result (option User);
  createAnswer : Result User;
  calls : list Call
}.

#[export] Instance Script_IStorage : IStorage Script := {
  getUserByUsername name := fun b =>
    (lookupAnswer b,
     mkScript (lookupAnswer b) (createAnswer b) (calls b ++ [Lookup name]));
  createUser f := fun b =>
    (createAnswer b,
     mkScript (lookupAnswer b) (createAnswer b) (calls b ++ [Create f]))
}.

(** What the step is expected to ask, given the answer to the lookup. *)
Definition expected_calls (lookup : Result (option User)) : list Call :=
  match lookup with
  | Ok None => [Lookup "admin"; Create defaultAdmin]
  | _ => [Lookup "admin"]
  end.

End Scripted.

(** ** The metrics query and the loading of the saved configuration *)

Module MetricsQuery.
Import Monitoring.

(** Lines 51-72, cut down to the fields the page computes with. *)
Record ZabbixHost : Type := mkHost {
  hostid : string;
  name : string;
  cpu_usage : option Q;
  memory_usage : option Q;
  uptime : option Q;
  groups : option (list string)
}.

Record ZabbixProblem : Type := mkProblem {
  eventid : string;
  severity : Z
}.

(** What [JSON.parse] gives for the stored text: [null], or a value with
    the three fields the query function reads ([None]: no such field, as
    for a number or a string). *)
Inductive Stored : Type :=
| SNull
| SValue (url username password : option string).

(** The fields the page reads from the body of a metrics response. *)
Record MetricsFields : Type := mkFields {
  f_message : option string;
  f_error : option string;
  f_hosts : option (list ZabbixHost);
  f_problems : option (list ZabbixProblem);
  f_totalHosts : option Q;
  f_availableHosts : option Q;
  f_unavailableHosts : option Q;
  f_avgCpuUsage : option Q;
  f_avgMemoryUsage : option Q
}.

Inductive Json : Type :=
| JNull
| JPrimitive                      (* a number, a string or a boolean *)
| JObject (fields : MetricsFields).

Record MetricsResponse : Type := mkMetricsResponse {
  m_ok : bool;
  m_status : nat;
  m_statusText : string;
  m_json : Result Json
}.

Definition MetricsNetwork : Type := Request -> Result MetricsResponse.

Record QueryResult : Type := mkResult {
  metrics : ServerMetrics;
  hosts : list ZabbixHost;
  problems : list ZabbixProblem
}.

Definition show_nat (n : nat) : string :=
  NilEmpty.string_of_uint (Nat.to_uint n).

(** [`HTTP ${response.status}: ${response.statusText}`] *)
Definition http_message (r : MetricsResponse) : string :=
  "HTTP " ++ show_nat (m_status r) ++ ": " ++ m_statusText r.

(** [a || b || c] on strings that may be missing. *)
Definition first_truthy (a b : option string) (c : string) : string :=
  message_or a (message_or b c).

(** [localStorage.getItem(key) || fallback] *)
Definition item_or (item : option string) (fallback : string) : string :=
  match item with
  | Some s => if String.eqb s "" then fallback else s
  | None => fallback
  end.

Definition list_or_empty {A} (l : option (list A)) : list A :=
  match l with
  | Some l => l
  | None => []
  end.

Definition fetchMetrics (net : MetricsNetwork) (r : Request)
  : M Client MetricsResponse :=
  modify (fun c => mkClient (localStorage c) (requests c ++ [r]) (toasts c)
                            (isConfigured c) (showSettings c) (formErrors c)
                            (invalidations c)) ;;;
  call (net r).

Definition incomplete_message : string :=
  "Zabbix configuration is incomplete. Please check settings.".

Section Query.
(** [JSON.parse] and [JSON.stringify] are the platform's. *)
Variable JSON_parse : string -> Result Stored.
Variable JSON_stringify : Stored -> string.

(** Lines 225-234. *)
Definition with_defaults (data : MetricsFields) : QueryResult :=
  mkResult
    (mkMetrics (or_default (f_totalHosts data) 0)
               (or_default (f_availableHosts data) 0)
               (or_default (f_unavailableHosts data) 0)
               (or_default (f_avgCpuUsage data) 0)
               (or_default (f_avgMemoryUsage data) 0))
    (list_or_empty (f_hosts data))
    (list_or_empty (f_problems data)).

(** Lines 198-235. *)
Definition queryFn (net : MetricsNetwork) : M Client QueryResult :=
  c <- get ;;
  config <- call (JSON_parse (item_or (localStorage c !! config_key) "{}")) ;;
  match config with
  | SNull => throw "Cannot read properties of null (reading 'url')"
  | SValue url username password =>
      if negb (truthy_string url) || negb (truthy_string username)
         || negb (truthy_string password)
      then throw incomplete_message
      else
        response <- fetchMetrics net (mkRequest Metrics (JSON_stringify config)) ;;
        if negb (m_ok response) then
          match m_json response with
          | Exn _ => throw (http_message response)
          | Ok JNull =>
              throw "Cannot read properties of null (reading 'message')"
          | Ok JPrimitive => throw (http_message response)
          | Ok (JObject errorData) =>
              throw (first_truthy (f_message errorData) (f_error errorData)
                                  (http_message response))
          end
        else
          data <- call (m_json response) ;;
          match data with
          | JObject data => ret (with_defaults data)
          | _ => throw "Invalid response format from server"
          end
  end.

(** The stored configuration the query function would send: present when
    the stored text parses to a value whose url, username and password are
    all truthy. *)
Definition complete_config (c : Client) : option Stored :=
  match JSON_parse (item_or (localStorage c !! config_key) "{}") with
  | Ok (SValue url username password) =>
      if truthy_string url && truthy_string username && truthy_string password
      then Some (SValue url username password)
      else None
  | _ => None
  end.

Definition sent_by_query (c : Client) : list Request :=
  match complete_config c with
  | Some config => [mkRequest Metrics (JSON_stringify config)]
  | None => []
  end.

End Query.

(** The body of a response carries no text for the error: it is no JSON,
    no object, or an object whose [message] and [error] are both falsy. *)
Definition no_error_text (body : Result Json) : bool :=
  match body with
  | Exn _ => true
  | Ok JNull => false
  | Ok JPrimitive => true
  | Ok (JObject f) =>
      negb (truthy_string (f_message f)) && negb (truthy_string (f_error f))
  end.

(** Line 237: [refetchInterval], [None] for [false]. *)
Definition refetchInterval (values : ZabbixConfig) : option Num :=
  if autoRefresh values
  then Some (js_times (refreshInterval values) 1000)
  else None.

(** *** Lines 104-122: [loadConfig] *)

Section Load.
(** The value [JSON.parse] gives is handed to [form.reset] as it is. *)
Variable Parsed : Type.
Variable JSON_parse : string -> Result Parsed.

Record Page : Type := mkPage {
  client : Client;
  isLoading : bool;
  formValues : option Parsed;      (* the argument of the last [form.reset] *)
  errors : list string             (* [console.error] *)
}.

Definition form_reset (config : Parsed) : M Page unit :=
  modify (fun p => mkPage (client p) (isLoading p) (Some config) (errors p)).

Definition page_setIsConfigured (b : bool) : M Page unit :=
  modify (fun p =>
    mkPage (mkClient (localStorage (client p)) (requests (client p))
                     (toasts (client p)) b (showSettings (client p))
                     (formErrors (client p)) (invalidations (client p)))
           (isLoading p) (formValues p) (errors p)).

Definition setIsLoading (b : bool) : M Page unit :=
  modify (fun p => mkPage (client p) b (formValues p) (errors p)).

Definition page_console_error (msg : string) : M Page unit :=
  modify (fun p => mkPage (client p) (isLoading p) (formValues p)
                          (errors p ++ [msg])).

(** [try { … } finally { … }] *)
Definition try_finally {S A} (m : M S A) (finalizer : M S unit) : M S A :=
  fun s =>
    let '(r, s') := m s in
    match finalizer s' with
    | (Ok _, s'') => (r, s'')
    | (Exn msg, s'') => (Exn msg, s'')
    end.

Definition loadConfig : M Page unit :=
  try_finally
    (try_catch
       (p <- get ;;
        match localStorage (client p) !! config_key with
        | Some savedConfig =>
            if negb (String.eqb savedConfig "") then
              config <- call (JSON_parse savedConfig) ;;
              form_reset config ;;;
              page_setIsConfigured true
            else ret tt
        | None => ret tt
        end)
       (fun error => page_console_error error))
    (setIsLoading false).

(** The page as it is mounted: loading, form at its defaults. *)
Definition mounted (c : Client) : Page := mkPage c true None [].

End Load.
Arguments mkPage {Parsed} _ _ _ _.
Arguments client {Parsed} _.
Arguments isLoading {Parsed} _.
Arguments formValues {Parsed} _.
Arguments errors {Parsed} _.
Arguments loadConfig {Parsed} _.
Arguments mounted {Parsed} _.

(** Sample platform functions. *)
Definition sample_parse (s : string) : Result Stored :=
  if String.eqb s "{}" then Ok (SValue None None None)
  else if String.eqb s "null" then Ok SNull
  else if String.prefix "{" s
       then Ok (SValue (Some "https://zabbix.example.com/zabbix")
                       (Some "Admin") (Some "zabbix"))
       else Exn "Unexpected token".

Definition sample_restringify (c : Stored) : string :=
  match c with
  | SNull => "null"
  | SValue u n p => "{" ++ message_or u "" ++ "}"
  end.

Definition sample_parse_config (s : string) : Result ZabbixConfig :=
  if String.prefix "{url:" s then Ok (sample_config 60)
  else Exn "Unexpected token".

Definition unauthorized : MetricsNetwork :=
  fun _ => Ok (mkMetricsResponse false 401 "Unauthorized" (Exn "Unexpected end of JSON input")).

Definition stored_client : Client :=
  mkClient {[ config_key := "{url:https://zabbix.example.com/zabbix}" ]}
           [] [] true false [] 0.

End MetricsQuery.

(** ** What the dashboard computes from the metrics *)

Module Dashboard.
Import Monitoring MetricsQuery.

(** [severity === k] for a number literal [k]. *)
Definition is_number (n : Num) (k : Q) : bool :=
  match n with
  | Fin q => Qeq_bool q k
  | _ => false
  end.

(** Lines 253-262. *)
Definition getSeverityColor (severity : Num) : string :=
  if is_number severity 5 then "bg-red-500"
  else if is_number severity 4 then "bg-orange-500"
  else if is_number severity 3 then "bg-yellow-500"
  else if is_number severity 2 then "bg-blue-500"
  else if is_number severity 1 then "bg-green-500"
  else "bg-gray-500".

(** Lines 264-273. *)
Definition getSeverityText (severity : Num) : string :=
  if is_number severity 5 then "Disaster"
  else if is_number severity 4 then "High"
  else if is_number severity 3 then "Average"
  else if is_number severity 2 then "Warning"
  else if is_number severity 1 then "Information"
  else "Not Classified".

(** [`${n}`] for an integer. *)
Definition show_int (n : Z) : string :=
  NilEmpty.string_of_int (Z.to_int n).

(** Lines 275-283, on a whole number of seconds: [Math.floor] of a quotient
    is the floor division, [%] the remainder with the sign of the
    dividend. *)
Definition days (seconds : Z) : Z := (seconds / 86400)%Z.

Definition hours (seconds : Z) : Z := (Z.rem seconds 86400 / 3600)%Z.

Definition minutes (seconds : Z) : Z := (Z.rem seconds 3600 / 60)%Z.

Definition formatUptime (seconds : Z) : string :=
  if Z.ltb 0 (days seconds) then
    show_int (days seconds) ++ "d " ++ show_int (hours seconds) ++ "h "
    ++ show_int (minutes seconds) ++ "m"
  else if Z.ltb 0 (hours seconds) then
    show_int (hours seconds) ++ "h " ++ show_int (minutes seconds) ++ "m"
  else show_int (minutes seconds) ++ "m".

(** Line 684: the number of problems of one severity. *)
Definition severityCount (problems : list ZabbixProblem) (s : Z) : nat :=
  length (List.filter (fun p => Z.eqb (severity p) s) problems).

(** Lines 683-694: the six rows of the card. *)
Definition severityRows (problems : list ZabbixProblem) : list (Z * nat) :=
  List.map (fun s => (s, severityCount problems s)) [5; 4; 3; 2; 1; 0]%Z.

(** [x || 0] on the number a host may lack. *)
Definition value (key : ZabbixHost -> option Q) (h : ZabbixHost) : Q :=
  or_default (key h) 0.

Definition has (key : ZabbixHost -> option Q) (h : ZabbixHost) : bool :=
  match key h with Some _ => true | None => false end.

(** [sort((a, b) => (b.key || 0) - (a.key || 0))]: the sort is stable, so
    with this comparator its result is the one list that is in descending
    order and keeps the hosts of equal value in the order they came.
    Inserting each host before the first one it is not smaller than gives
    that list. *)
Fixpoint insert_desc (key : ZabbixHost -> option Q) (x : ZabbixHost)
                     (l : list ZabbixHost) : list ZabbixHost :=
  match l with
  | [] => [x]
  | y :: rest =>
      if Qle_bool (value key y) (value key x)
      then x :: y :: rest
      else y :: insert_desc key x rest
  end.

Definition sort_desc (key : ZabbixHost -> option Q) (l : list ZabbixHost)
  : list ZabbixHost :=
  List.fold_right (insert_desc key) [] l.

(** Lines 617-620, 650-653 and 902-905:
    [hosts.filter(h => h.key !== undefined).sort(…).slice(0, n)]. *)
Definition topBy (key : ZabbixHost -> option Q) (n : nat)
                 (hosts : list ZabbixHost) : list ZabbixHost :=
  List.firstn n (sort_desc key (List.filter (has key) hosts)).

(** The hosts with data that the card leaves out. *)
Definition belowTop (key : ZabbixHost -> option Q) (n : nat)
                    (hosts : list ZabbixHost) : list ZabbixHost :=
  List.skipn n (sort_desc key (List.filter (has key) hosts)).

(** [descending key a b]: [a] may stand before [b]. *)
Definition descending (key : ZabbixHost -> option Q) (a b : ZabbixHost) : Prop :=
  (value key b <= value key a)%Q.

Definition sample_hosts : list ZabbixHost :=
  [ mkHost "1" "web" (Some 12%Q) None None None;
    mkHost "2" "db" (Some 80%Q) None None None;
    mkHost "3" "cache" None None None None;
    mkHost "4" "mail" (Some 80%Q) None None None ].

End Dashboard.

(** ** The floating chat widget ([floating-chat.tsx]) *)

Module Chat.

Record FloatingChatProps : Type := mkProps {
  windowTitle : string;
  flowId : string;
  hostUrl : string;
  apiKey : string;
  width : string;
  height : string;
  startOpen : bool
}.

(** An element as its tag and the attributes set on it, in order. *)
Record Element : Type := mkElement {
  tag : string;
  attributes : list (string * string)
}.

(** The state of the component: the two flags, and the children of the
    container the ref points to ([None] while the ref is [null]). *)
Record Widget : Type := mkWidget {
  isOpen : bool;
  isLoaded : bool;
  container : option (list Element)
}.

Inductive View : Type :=
| ChatButton
| ChatWindow
| LoadingOverlay.

(** Lines 70-119: which of the three blocks are rendered. *)
Definition rendered (w : Widget) : list View :=
  (if negb (isOpen w) then [ChatButton] else []) ++
  (if isOpen w && isLoaded w then [ChatWindow] else []) ++
  (if isOpen w && negb (isLoaded w) then [LoadingOverlay] else []).

(** Lines 53-60. *)
Definition agentChat (p : FloatingChatProps) : Element :=
  mkElement "agent-chat"
    [ ("window_title", windowTitle p); ("flow_id", flowId p);
      ("host_url", hostUrl p); ("width", width p); ("height", height p);
      ("start_open", "true"); ("api_key", apiKey p) ].

(** Lines 47-64: the second effect. *)
Definition attachChat (p : FloatingChatProps) (w : Widget) : Widget :=
  match container w with
  | Some _ =>
      if isLoaded w && isOpen w
      then mkWidget (isOpen w) (isLoaded w) (Some [agentChat p])
      else w
  | None => w
  end.

(** Lines 66-68. *)
Definition toggleChat (w : Widget) : Widget :=
  mkWidget (negb (isOpen w)) (isLoaded w) (container w).

Definition chat_script : string :=
  "https://agent.sec.samsung.net/chat.bundle.min.js".

(** The scripts of [document.head], by their [src]. *)
Definition Head : Type := list string.

(** Lines 29-37: the first effect appends the script. *)
Definition mountScript (head : Head) : Head := (head ++ [chat_script])%list.

Fixpoint remove_first (src : string) (head : Head) : Head :=
  match head with
  | [] => []
  | s :: rest => if String.eqb s src then rest else s :: remove_first src rest
  end.

(** Lines 39-44: its cleanup removes the first script with that [src]. *)
Definition unmountScript (head : Head) : Head := remove_first chat_script head.

End Chat.

(* ===================================================================== *)
(** * Part II — the properties                                            *)
(* ===================================================================== *)

(** ** Backend selection and the swap *)

Module BootstrapProps.
Import Bootstrap.

Lemma truthy_string_spec (url : option string) :
  truthy_string url = true <-> exists s, url = Some s /\ s <> "".
Proof.
  destruct url as [s|]; simpl.
  - destruct (String.eqb_spec s ""); simpl; split.
    + discriminate.
    + intros (s' & [= <-] & Hne). contradiction.
    + eauto.
    + reflexivity.
  - split; [discriminate | intros (s & [=] & _)].
Qed.

Lemma truthy_ref_spec {A} (r : option A) :
  truthy_ref r = true <-> exists a, r = Some a.
Proof.
  destruct r; simpl; split; eauto; try discriminate.
  intros (a & [=]).
Qed.

(** The condition of line 102, row by row. *)
Lemma selectDurable_spec fresh declared verified url db :
  selectDurable fresh declared verified url db = true <->
  (fresh = true \/ declared = true \/ verified = true) /\
  (exists s, url = Some s /\ s <> "") /\
  (exists handle, db = Some handle).
Proof.
  unfold selectDurable.
  rewrite !andb_true_iff, !orb_true_iff, truthy_string_spec, truthy_ref_spec.
  tauto.
Qed.

(** The probe never throws, touches nothing but the console, and its
    answer does not depend on the state it runs in. *)
Lemma directProbe_run (e : Env) (s : State) :
  directProbe e s =
  (Ok (actualConnectionVerified e),
   mkState (heap s) (usingDatabase s) (console s ++ probeLines e)).
Proof.
  unfold actualConnectionVerified, probeLines, directProbe.
  destruct s as [h u c].
  destruct (truthy_string (DATABASE_URL e)); [| cbn; by rewrite app_nil_r].
  destruct (freshDb e) as [[q1 q2]|]; [| cbn; by rewrite app_nil_r].
  destruct q1 as [[[[|n]|]|]|msg], q2 as [[]|msg'];
    cbn; rewrite <- ?app_assoc; reflexivity.
Qed.

Lemma verified_needs_target (e : Env) :
  actualConnectionVerified e = true ->
  truthy_string (DATABASE_URL e) = true /\ truthy_ref (freshDb e) = true.
Proof.
  unfold actualConnectionVerified, directProbe.
  destruct (truthy_string (DATABASE_URL e)); [| cbn; discriminate].
  destruct (freshDb e); [| cbn; discriminate].
  auto.
Qed.

(** The bootstrap, split at the [if] of line 102. *)
Lemma bootstrap_unfold (e : Env) (h : Heap) :
  bootstrap e h =
  match selected e with
  | Durable =>
      attemptDurable e (mkState h false (preamble e ++ durableLines e))
  | InMemory =>
      (Ok tt,
       mkState h false
         (preamble e ++
          [PostgresNotAvailable; DataWillNotPersist; SetUpPostgresHint]))
  end.
Proof.
  unfold bootstrap, bootstrapM, selected, preamble, durableLines.
  unfold bind at 1. cbn [log modify initial].
  unfold bind at 1. rewrite directProbe_run. cbn [heap usingDatabase console].
  destruct (selectDurable _ _ _ _ _).
  - cbn. rewrite <- !app_assoc. reflexivity.
  - cbn. rewrite <- !app_assoc. reflexivity.
Qed.

Section Attempt.
Variable e : Env.
Variable s : State.

Lemma attempt_migration_fails msg :
  runMigrations e = Exn msg ->
  attemptDurable e s =
  (Ok tt, mkState (heap s) false
            (console s ++ [RunningVerification; MigrationsFailed msg;
                           FallingBackToMemory])).
Proof.
  intros Hm. unfold attemptDurable, try_catch, bind, call, log, modify.
  rewrite Hm. cbn. rewrite <- !app_assoc. reflexivity.
Qed.

Lemma attempt_initialize_fails msg :
  runMigrations e = Ok tt -> initializeDatabase e = Exn msg ->
  attemptDurable e s =
  (Ok tt, mkState (heap s) false
            (console s ++ [RunningVerification; InitStorageFailed msg;
                           FallingBackToMemory])).
Proof.
  intros Hm Hi.
  unfold attemptDurable, initStorage, try_catch, bind, call, log, modify.
  rewrite Hm, Hi. cbn. rewrite <- !app_assoc. reflexivity.
Qed.

Lemma attempt_constructor_fails msg :
  runMigrations e = Ok tt -> initializeDatabase e = Ok tt ->
  newDatabaseStorage e = Exn msg ->
  attemptDurable e s =
  (Ok tt, mkState (heap s) false
            (console s ++ [RunningVerification; InitializingPostgres;
                           InitStorageFailed msg; FallingBackToMemory])).
Proof.
  intros Hm Hi Hc.
  unfold attemptDurable, initStorage, construct, try_catch, bind, call, log,
    modify.
  rewrite Hm, Hi, Hc. cbn. rewrite <- !app_assoc. reflexivity.
Qed.

Lemma attempt_succeeds :
  runMigrations e = Ok tt -> initializeDatabase e = Ok tt ->
  newDatabaseStorage e = Ok tt ->
  attemptDurable e s =
  (Ok tt,
   mkState
     (alter (rebindAll (DatabaseStorage_prototype e) (fresh (dom (heap s))))
            storage (<[fresh (dom (heap s)) := ∅]> (heap s)))
     true
     (console s ++ [RunningVerification; InitializingPostgres;
                    StorageInitialized; DataWillPersist])).
Proof.
  intros Hm Hi Hc.
  unfold attemptDurable, initStorage, construct, assignMethods, try_catch,
    bind, call, log, modify, get, set_usingDatabase, ret.
  rewrite Hm, Hi, Hc. cbn. rewrite <- !app_assoc. reflexivity.
Qed.

End Attempt.

(** Whatever happens, the bootstrap itself returns. *)
Lemma bootstrap_returns (e : Env) (h : Heap) : fst (bootstrap e h) = Ok tt.
Proof.
  rewrite bootstrap_unfold. destruct (selected e); [reflexivity |].
  destruct (runMigrations e) as [[]|m] eqn:Hm;
    [| by erewrite attempt_migration_fails].
  destruct (initializeDatabase e) as [[]|m] eqn:Hi;
    [| by erewrite attempt_initialize_fails].
  destruct (newDatabaseStorage e) as [[]|m] eqn:Hc;
    [| by erewrite attempt_constructor_fails].
  by rewrite attempt_succeeds.
Qed.

(** Rebinding: a function-valued name of the prototype ends up bound to the
    new instance, and stays so through the rest of the loop. *)
Lemma rebindAll_keeps proto inst (obj : Object) name :
  obj !! name = Some (VFun (BoundMethod inst name)) ->
  rebindAll proto inst obj !! name = Some (VFun (BoundMethod inst name)).
Proof.
  unfold rebindAll. revert obj.
  induction proto as [|[n b] proto IH]; intros obj Hobj; [exact Hobj|].
  cbn [fold_left]. apply IH. unfold rebind.
  destruct (negb (String.eqb n "constructor") && b); [| exact Hobj].
  destruct (decide (n = name)) as [->|Hne].
  - apply lookup_insert_eq.
  - by rewrite lookup_insert_ne.
Qed.

Lemma rebindAll_binds proto inst (obj : Object) name :
  In (name, true) proto -> name <> "constructor" ->
  rebindAll proto inst obj !! name = Some (VFun (BoundMethod inst name)).
Proof.
  unfold rebindAll. revert obj.
  induction proto as [|[n b] proto IH]; intros obj Hin Hname; [destruct Hin|].
  cbn [fold_left]. destruct Hin as [[= -> ->]|Hin].
  - apply rebindAll_keeps. unfold rebind.
    destruct (String.eqb_spec name "constructor"); [contradiction|].
    cbn. apply lookup_insert_eq.
  - by apply IH.
Qed.

(** A name the loop skips keeps the binding it had. *)
Lemma rebindAll_frame proto inst (obj : Object) name :
  (forall b, In (name, b) proto -> b = false \/ name = "constructor") ->
  rebindAll proto inst obj !! name = obj !! name.
Proof.
  unfold rebindAll. revert obj.
  induction proto as [|[n b] proto IH]; intros obj Hskip; [reflexivity|].
  cbn [fold_left]. rewrite IH by (intros b' Hb'; apply Hskip; by right).
  unfold rebind.
  destruct (negb (String.eqb n "constructor") && b) eqn:Hc; [| reflexivity].
  apply andb_true_iff in Hc as [Hn ->].
  destruct (decide (n = name)) as [->|Hne]; [| by rewrite lookup_insert_ne].
  destruct (Hskip true) as [Hb|Hb]; [by left | discriminate Hb |].
  subst name. rewrite String.eqb_refl in Hn. discriminate Hn.
Qed.

Ltac in_cases H :=
  repeat (destruct H as [H|H]); try discriminate H; try contradiction.

(** The probe writes only its own four kinds of lines. *)
Lemma probeLines_own (e : Env) (l : Line) :
  In l (probeLines e) ->
  l <> RunningVerification /\ l <> PostgresNotAvailable.
Proof.
  unfold probeLines, directProbe.
  destruct (truthy_string (DATABASE_URL e)); [| intros []].
  destruct (freshDb e) as [[q1 q2]|]; [| intros []].
  destruct q1 as [[[[|n]|]|]|msg], q2 as [[]|msg']; cbn;
    intuition (subst; discriminate).
Qed.

(** The durable branch announces the migration run first, and never prints
    the line of the other branch. *)
Lemma attemptDurable_console (e : Env) (s : State) :
  exists rest,
    console (snd (attemptDurable e s))
    = (console s ++ RunningVerification :: rest)%list
    /\ ~ In PostgresNotAvailable rest.
Proof.
  destruct (runMigrations e) as [[]|m] eqn:Hm.
  2:{ erewrite attempt_migration_fails by eassumption. eexists; split;
      [reflexivity | cbn; intuition discriminate]. }
  destruct (initializeDatabase e) as [[]|m] eqn:Hi.
  2:{ erewrite attempt_initialize_fails by eassumption. eexists; split;
      [reflexivity | cbn; intuition discriminate]. }
  destruct (newDatabaseStorage e) as [[]|m] eqn:Hc.
  2:{ erewrite attempt_constructor_fails by eassumption. eexists; split;
      [reflexivity | cbn; intuition discriminate]. }
  rewrite attempt_succeeds by assumption. eexists; split;
    [reflexivity | cbn; intuition discriminate].
Qed.

Lemma selected_Durable_iff (e : Env) :
  selected e = Durable <->
  selectDurable (freshConnectionStatus e) (databaseConnected e)
                (actualConnectionVerified e) (DATABASE_URL e) (freshDb e) = true.
Proof. unfold selected. destruct (selectDurable _ _ _ _ _); by split. Qed.

Lemma selected_InMemory_iff (e : Env) :
  selected e = InMemory <-> selected e <> Durable.
Proof. destruct (selected e); split; congruence. Qed.

(** The eight rows of the three signals, for any target and handle: one
    row gives false whatever the rest, the other seven give the setting of
    target and handle. *)
Lemma selectDurable_rows (url : option string) (db : option DbHandle) :
  let configured := truthy_string url && truthy_ref db in
  selectDurable false false false url db = false /\
  selectDurable false false true url db = configured /\
  selectDurable false true false url db = configured /\
  selectDurable false true true url db = configured /\
  selectDurable true false false url db = configured /\
  selectDurable true false true url db = configured /\
  selectDurable true true false url db = configured /\
  selectDurable true true true url db = configured.
Proof.
  unfold selectDurable. cbn.
  by destruct (truthy_string url), (truthy_ref db).
Qed.

(** Where the bootstrap ends up: the durable backend is in use exactly when
    the durable branch was taken and its three steps succeeded. *)
Lemma usingDatabase_iff (e : Env) (h : Heap) :
  usingDatabase (snd (bootstrap e h)) = true <->
  selected e = Durable /\ runMigrations e = Ok tt /\
  initializeDatabase e = Ok tt /\ newDatabaseStorage e = Ok tt.
Proof.
  rewrite bootstrap_unfold. destruct (selected e).
  { cbn. split; [discriminate | intros [[=] _]]. }
  destruct (runMigrations e) as [[]|m] eqn:Hm.
  2:{ erewrite attempt_migration_fails by eassumption. cbn.
      split; [discriminate | intros (_ & [=] & _)]. }
  destruct (initializeDatabase e) as [[]|m] eqn:Hi.
  2:{ erewrite attempt_initialize_fails by eassumption. cbn.
      split; [discriminate | intros (_ & _ & [=] & _)]. }
  destruct (newDatabaseStorage e) as [[]|m] eqn:Hc.
  2:{ erewrite attempt_constructor_fails by eassumption. cbn.
      split; [discriminate | intros (_ & _ & _ & [=])]. }
  rewrite attempt_succeeds by assumption. cbn. by split.
Qed.

(** C1 — Backend selection.  For every combination of the three signals
    (fresh, declared, verified) and both settings of the target and of the
    handle, the condition of line 102 holds exactly when at least one
    signal is true, DATABASE_URL is configured (set and not empty) and a
    database handle exists.  The bootstrap goes for the durable backend
    (it announces and starts the migration run) exactly in that case, and
    for the in-memory backend (it prints that PostgreSQL is not available)
    exactly otherwise. *)
Theorem backend_selection_truth_table :
  (forall fresh declared verified url db,
      selectDurable fresh declared verified url db = true <->
      (fresh = true \/ declared = true \/ verified = true) /\
      (exists s, url = Some s /\ s <> "") /\
      (exists handle, db = Some handle)) /\
  (forall (e : Env) (h : Heap),
      let durable_case :=
        (freshConnectionStatus e = true \/ databaseConnected e = true \/
         actualConnectionVerified e = true) /\
        (exists s, DATABASE_URL e = Some s /\ s <> "") /\
        (exists handle, freshDb e = Some handle) in
      let out := console (snd (bootstrap e h)) in
      (selected e = Durable <-> durable_case) /\
      (selected e = InMemory <-> ~ durable_case) /\
      (In RunningVerification out <-> selected e = Durable) /\
      (In PostgresNotAvailable out <-> selected e = InMemory)).
Proof.
  split; [exact selectDurable_spec|].
  intros e h durable_case out.
  assert (Hd : selected e = Durable <-> durable_case).
  { rewrite selected_Durable_iff. apply selectDurable_spec. }
  split; [exact Hd|].
  split; [rewrite selected_InMemory_iff; by rewrite Hd|].
  subst out. rewrite bootstrap_unfold.
  destruct (selected e) eqn:Hsel.
  - cbn [snd console]. unfold preamble. split; split; try congruence.
    + rewrite !in_app_iff. cbn. intros Hin. exfalso. in_cases Hin.
      by apply probeLines_own in Hin as [? _].
    + intros _. rewrite !in_app_iff. cbn. auto.
  - destruct (attemptDurable_console e
                (mkState h false (preamble e ++ durableLines e)))
      as (rest & -> & Hrest).
    cbn [console]. split; split; try congruence.
    + intros _. rewrite !in_app_iff. cbn. auto.
    + unfold preamble, durableLines. rewrite !in_app_iff. cbn.
      intros Hin. exfalso. in_cases Hin.
      by apply probeLines_own in Hin as [_ ?].
Qed.

(** C2 — Fallback.  When the migration run fails, or [initializeDatabase]
    or the constructor of the durable backend fails, the bootstrap still
    returns, [usingDatabase] is false, and the heap is the one it started
    with: no property of the storage object has been assigned, so every
    operation called through the handle runs what it ran before. *)
Theorem failure_keeps_memory_bindings (e : Env) (h : Heap) :
  is_ok (runMigrations e) = false \/
  is_ok (initializeDatabase e) = false \/
  is_ok (newDatabaseStorage e) = false ->
  fst (bootstrap e h) = Ok tt /\
  usingDatabase (snd (bootstrap e h)) = false /\
  heap (snd (bootstrap e h)) = h /\
  (forall name,
      invoke (heap (snd (bootstrap e h))) storage name = invoke h storage name).
Proof.
  intros Hfail. split; [apply bootstrap_returns|].
  assert (Hgoal : usingDatabase (snd (bootstrap e h)) = false /\
                  heap (snd (bootstrap e h)) = h).
  { rewrite bootstrap_unfold. destruct (selected e); [by split|].
    destruct (runMigrations e) as [[]|m] eqn:Hm;
      [| by erewrite attempt_migration_fails].
    destruct (initializeDatabase e) as [[]|m] eqn:Hi;
      [| by erewrite attempt_initialize_fails].
    destruct (newDatabaseStorage e) as [[]|m] eqn:Hc;
      [| by erewrite attempt_constructor_fails].
    cbn in Hfail. intuition discriminate. }
  destruct Hgoal as [Hu Hh]. rewrite Hh. auto.
Qed.

Lemma failure_keeps_memory_bindings_witness :
  is_ok (runMigrations sample_env_failing_migration) = false /\
  usingDatabase (snd (bootstrap sample_env_failing_migration sample_heap)) = false /\
  heap (snd (bootstrap sample_env_failing_migration sample_heap)) = sample_heap.
Proof.
  split; [reflexivity|].
  pose proof (failure_keeps_memory_bindings sample_env_failing_migration
                sample_heap) as H.
  destruct H as (_ & Hu & Hh & _); [left; reflexivity|].
  split; [exact Hu | exact Hh].
Defined.

(** C3 — The swap.  When the durable branch is taken and the migration
    run, [initializeDatabase] and the constructor all succeed, then
    [usingDatabase] is true and every operation of the durable backend (a
    function-valued own name of its prototype other than the constructor),
    called through the handle, runs the method of that name on the new
    instance; so do [getUserByUsername] and [createUser] when the class has
    them.  The instance is a new object, the handle is the object it was
    (the same reference reads the new bindings), no other object changes,
    and a name the loop skips keeps its binding. *)
Theorem successful_swap_delegates_to_durable (e : Env) (h : Heap) (obj : Object) :
  h !! storage = Some obj ->
  selected e = Durable ->
  runMigrations e = Ok tt ->
  initializeDatabase e = Ok tt ->
  newDatabaseStorage e = Ok tt ->
  let s' := snd (bootstrap e h) in
  let databaseStorage := fresh (dom h) in
  usingDatabase s' = true /\
  h !! databaseStorage = None /\
  heap s' !! storage
    = Some (rebindAll (DatabaseStorage_prototype e) databaseStorage obj) /\
  (forall name,
      In (name, true) (DatabaseStorage_prototype e) ->
      name <> "constructor" ->
      invoke (heap s') storage name = Some (RunsOnInstance databaseStorage name)) /\
  (In ("getUserByUsername", true) (DatabaseStorage_prototype e) ->
   invoke (heap s') storage "getUserByUsername"
   = Some (RunsOnInstance databaseStorage "getUserByUsername")) /\
  (In ("createUser", true) (DatabaseStorage_prototype e) ->
   invoke (heap s') storage "createUser"
   = Some (RunsOnInstance databaseStorage "createUser")) /\
  (forall name,
      (forall b, In (name, b) (DatabaseStorage_prototype e) ->
                 b = false \/ name = "constructor") ->
      invoke (heap s') storage name = invoke h storage name) /\
  (forall r, r <> storage -> r <> databaseStorage -> heap s' !! r = h !! r).
Proof.
  intros Hobj Hsel Hm Hi Hc s' inst.
  assert (Hfresh : h !! inst = None).
  { apply not_elem_of_dom. apply is_fresh. }
  assert (Hne : inst <> storage) by (intros Heq; congruence).
  assert (Hs' : s' = mkState
                  (alter (rebindAll (DatabaseStorage_prototype e) inst) storage
                         (<[inst := ∅]> h))
                  true
                  ((preamble e ++ durableLines e) ++
                   [RunningVerification; InitializingPostgres;
                    StorageInitialized; DataWillPersist])).
  { subst s'. rewrite bootstrap_unfold, Hsel.
    by rewrite attempt_succeeds. }
  assert (Hhandle : heap s' !! storage
                    = Some (rebindAll (DatabaseStorage_prototype e) inst obj)).
  { rewrite Hs'. cbn [heap]. rewrite lookup_alter_eq.
    rewrite lookup_insert_ne by exact Hne. by rewrite Hobj. }
  assert (Hbound : forall name,
             In (name, true) (DatabaseStorage_prototype e) ->
             name <> "constructor" ->
             invoke (heap s') storage name = Some (RunsOnInstance inst name)).
  { intros name Hin Hname. unfold invoke. rewrite Hhandle.
    by rewrite rebindAll_binds. }
  split; [by rewrite Hs'|].
  split; [exact Hfresh|].
  split; [exact Hhandle|].
  split; [exact Hbound|].
  split; [intros Hin; by apply Hbound|].
  split; [intros Hin; by apply Hbound|].
  split.
  - intros name Hskip. unfold invoke. rewrite Hhandle, Hobj.
    by rewrite rebindAll_frame.
  - intros r Hr1 Hr2. rewrite Hs'. cbn [heap].
    rewrite lookup_alter_ne by congruence.
    by rewrite lookup_insert_ne.
Qed.

Lemma successful_swap_delegates_to_durable_witness :
  sample_heap !! storage = Some sample_handle /\
  selected sample_env = Durable /\
  invoke (heap (snd (bootstrap sample_env sample_heap))) storage "createUser"
  = Some (RunsOnInstance (fresh (dom sample_heap)) "createUser").
Proof.
  split; [reflexivity|]. split; [reflexivity|].
  pose proof (successful_swap_delegates_to_durable sample_env sample_heap
                sample_handle eq_refl eq_refl eq_refl eq_refl eq_refl) as H.
  destruct H as (_ & _ & _ & _ & _ & Hcreate & _).
  apply Hcreate. cbn. auto.
Defined.

Lemma with_vm_probe_verified (e : Env) (r : Result unit) :
  actualConnectionVerified (with_vm_probe e r) = actualConnectionVerified e.
Proof.
  unfold actualConnectionVerified, directProbe, with_vm_probe.
  cbn [DATABASE_URL freshDb].
  destruct (truthy_string (DATABASE_URL e)); [| reflexivity].
  destruct (freshDb e) as [[q1 q2]|]; [| reflexivity].
  cbn [select1 countVmMonitoring].
  destruct q1 as [[[[|n]|]|]|msg], q2 as [[]|msg'], r as [[]|msg'']; reflexivity.
Qed.

Lemma with_vm_probe_selected (e : Env) (r : Result unit) :
  selected (with_vm_probe e r) = selected e.
Proof.
  unfold selected. rewrite with_vm_probe_verified.
  unfold with_vm_probe. cbn [freshConnectionStatus databaseConnected
                             DATABASE_URL freshDb].
  unfold selectDurable. by destruct (freshDb e).
Qed.

(** What the bootstrap leaves in the heap and in [usingDatabase] is fixed
    by the branch taken and by the four things the durable branch uses. *)
Lemma bootstrap_outcome_depends (e1 e2 : Env) (h : Heap) :
  selected e1 = selected e2 ->
  runMigrations e1 = runMigrations e2 ->
  initializeDatabase e1 = initializeDatabase e2 ->
  newDatabaseStorage e1 = newDatabaseStorage e2 ->
  DatabaseStorage_prototype e1 = DatabaseStorage_prototype e2 ->
  heap (snd (bootstrap e1 h)) = heap (snd (bootstrap e2 h)) /\
  usingDatabase (snd (bootstrap e1 h)) = usingDatabase (snd (bootstrap e2 h)).
Proof.
  intros Hsel Hm Hi Hc Hp. rewrite !bootstrap_unfold, <- Hsel.
  destruct (selected e1); [by split|].
  destruct (runMigrations e1) as [[]|m] eqn:Hm1; symmetry in Hm.
  2:{ erewrite !attempt_migration_fails by eassumption. by split. }
  destruct (initializeDatabase e1) as [[]|m] eqn:Hi1; symmetry in Hi.
  2:{ erewrite !attempt_initialize_fails by eassumption. by split. }
  destruct (newDatabaseStorage e1) as [[]|m] eqn:Hc1; symmetry in Hc.
  2:{ erewrite !attempt_constructor_fails by eassumption. by split. }
  rewrite !attempt_succeeds by assumption. cbn [snd heap usingDatabase].
  by rewrite Hp.
Qed.

(** C9 — The table probe does not gate.  Two runs that differ only in the
    answer of the [vm_monitoring] probe compute the same third signal, take
    the same branch, both return, and leave the same heap and the same
    [usingDatabase]; when the probe runs and fails, its failure is written
    to the console. *)
Theorem table_probe_never_gates (e : Env) (r1 r2 : Result unit) (h : Heap) :
  let e1 := with_vm_probe e r1 in
  let e2 := with_vm_probe e r2 in
  actualConnectionVerified e1 = actualConnectionVerified e2 /\
  selected e1 = selected e2 /\
  fst (bootstrap e1 h) = Ok tt /\
  fst (bootstrap e2 h) = Ok tt /\
  heap (snd (bootstrap e1 h)) = heap (snd (bootstrap e2 h)) /\
  usingDatabase (snd (bootstrap e1 h)) = usingDatabase (snd (bootstrap e2 h)) /\
  (forall msg,
      actualConnectionVerified e = true ->
      In VmTableMissing
         (console (snd (bootstrap (with_vm_probe e (Exn msg)) h)))).
Proof.
  intros e1 e2. subst e1 e2.
  split; [by rewrite !with_vm_probe_verified|].
  split; [by rewrite !with_vm_probe_selected|].
  split; [apply bootstrap_returns|].
  split; [apply bootstrap_returns|].
  pose proof (bootstrap_outcome_depends (with_vm_probe e r1)
                (with_vm_probe e r2) h) as [Hh Hu];
    try reflexivity; [by rewrite !with_vm_probe_selected|].
  split; [exact Hh|]. split; [exact Hu|].
  intros msg Hv.
  assert (Hprobe : In VmTableMissing (probeLines (with_vm_probe e (Exn msg)))).
  { revert Hv.
    unfold actualConnectionVerified, probeLines, directProbe, with_vm_probe.
    cbn [DATABASE_URL freshDb].
    destruct (truthy_string (DATABASE_URL e)); [| cbn; discriminate].
    destruct (freshDb e) as [[q1 q2]|]; [| cbn; discriminate].
    cbn [select1 countVmMonitoring].
    destruct q1 as [[[[|n]|]|]|m], q2 as [[]|m']; cbn; try discriminate; auto. }
  rewrite bootstrap_unfold.
  destruct (selected _).
  - cbn [snd console]. unfold preamble. rewrite !in_app_iff. auto.
  - destruct (attemptDurable_console (with_vm_probe e (Exn msg))
                (mkState h false (preamble (with_vm_probe e (Exn msg)) ++
                                  durableLines (with_vm_probe e (Exn msg)))))
      as (rest & -> & _).
    cbn [console]. unfold preamble. rewrite !in_app_iff. auto.
Qed.

End BootstrapProps.

(** ** The default-admin step *)

Module AdminProps.
Import Admin.

Lemma find_filter {A} (p : A -> bool) (l : list A) :
  List.find p l = hd_error (List.filter p l).
Proof.
  induction l as [|a l IH]; [reflexivity|].
  cbn. destruct (p a); [reflexivity | exact IH].
Qed.

Lemma admins_snoc (b : Store) (u : User) (n : nat) :
  has_username "admin" u = true ->
  admins (mkStore (users b ++ [u]) n) = (admins b ++ [u])%list.
Proof.
  intros Hu. unfold admins. cbn [users].
  rewrite List.filter_app. cbn. by rewrite Hu.
Qed.

(** What a run of the step does to the backend, whatever the logger does:
    nothing when an account named "admin" is found, one [createUser] with
    the default fields otherwise. *)
Lemma ensureAdmin_backend (lg : ExternalLogger) (ud : bool) (w : World Store) :
  backend (after_ensureAdmin lg ud w) =
  match List.find (has_username "admin") (users (backend w)) with
  | Some _ => backend w
  | None =>
      mkStore (users (backend w) ++ [mkUser (currentId (backend w)) defaultAdmin])
              (S (currentId (backend w)))
  end.
Proof.
  unfold after_ensureAdmin, ensureAdmin, try_catch, bind, on_storage, external,
    log, call, modify.
  destruct w as [b c wr]. cbn.
  destruct (List.find (has_username "admin") (users b)); cbn; [reflexivity|].
  destruct (lg (System "user_creation")); cbn; [reflexivity|].
  destruct (lg (System "user_creation_error")); reflexivity.
Qed.

(** With a backend that cannot be reached the step creates nothing; it
    still returns when the logger takes the error entry. *)
Lemma ensureAdmin_unreachable (ud : bool) (w : World Unreachable) :
  ensureAdmin healthy ud w =
  (Ok tt, mkWorld (backend w)
            (console w ++ [CheckingForAdmin; AdminInitFailed "connection refused"])
            (written w ++ [System "user_creation_error"])).
Proof.
  destruct w as [b c wr]. cbn. rewrite <- app_assoc. reflexivity.
Qed.

(** The logger call after [createUser] sits in the same [try]: when it
    throws, the account exists and the console still reports a failed
    initialisation. *)
Lemma ensureAdmin_logger_failure_reported (ud : bool) (msg : string) :
  let lg := fun e => match e with
                     | System "user_creation" => Exn msg
                     | _ => Ok tt
                     end in
  let w' := after_ensureAdmin lg ud (mkWorld (mkStore [] 1) [] []) in
  admins (backend w') = [mkUser 1 defaultAdmin] /\
  console w' = [CheckingForAdmin; CreatingAdmin; AdminCreated ud;
                AdminInitFailed msg].
Proof. cbn. by split. Qed.

(** The number of accounts named "admin" after a run: one more when
    there was none, unchanged otherwise. *)
Lemma ensureAdmin_admin_count (lg : ExternalLogger) (ud : bool) (w : World Store) :
  length (admins (backend (after_ensureAdmin lg ud w)))
  = Nat.max 1 (length (admins (backend w))).
Proof.
  rewrite ensureAdmin_backend, find_filter. fold (admins (backend w)).
  destruct (admins (backend w)) as [|a l] eqn:Ha.
  - cbn [hd_error]. rewrite admins_snoc by reflexivity. by rewrite Ha.
  - cbn [hd_error]. rewrite Ha. cbn [length]. lia.
Qed.

(** C4 — Idempotence of the admin step.  On a backend that holds at most
    one account named "admin": the step looks the name up and calls
    [createUser] only when the lookup finds nothing, with the username
    "admin", [isAdmin] true and the eleven categories each with view, edit
    and add true; a second run right after the first leaves the backend as
    the first run left it, with exactly one account named "admin".  This
    holds for every behaviour of the external logger. *)
Theorem ensureAdmin_twice_one_admin
    (lg1 lg2 : ExternalLogger) (ud1 ud2 : bool) (w : World Store) :
  length (admins (backend w)) <= 1 ->
  let w1 := after_ensureAdmin lg1 ud1 w in
  let w2 := after_ensureAdmin lg2 ud2 w1 in
  (admins (backend w) <> [] -> backend w1 = backend w) /\
  (admins (backend w) = [] ->
   users (backend w1)
   = (users (backend w) ++ [mkUser (currentId (backend w)) defaultAdmin])%list) /\
  username defaultAdmin = "admin" /\
  isAdmin defaultAdmin = true /\
  full_matrix (permissions defaultAdmin) /\
  length categories = 11 /\
  backend w2 = backend w1 /\
  length (admins (backend w2)) = 1.
Proof.
  intros Hle w1 w2.
  assert (H1 : backend w1 =
               match admins (backend w) with
               | _ :: _ => backend w
               | [] => mkStore (users (backend w) ++
                                [mkUser (currentId (backend w)) defaultAdmin])
                               (S (currentId (backend w)))
               end).
  { subst w1. rewrite ensureAdmin_backend, find_filter.
    fold (admins (backend w)). by destruct (admins (backend w)). }
  assert (Hone : length (admins (backend w1)) = 1).
  { rewrite H1. destruct (admins (backend w)) as [|a l] eqn:Ha.
    - rewrite admins_snoc by reflexivity. by rewrite Ha.
    - rewrite Ha. cbn in *. lia. }
  assert (H2 : backend w2 = backend w1).
  { subst w2. rewrite ensureAdmin_backend, find_filter.
    fold (admins (backend w1)).
    destruct (admins (backend w1)); [discriminate Hone | reflexivity]. }
  split.
  { intros Hne. rewrite H1. by destruct (admins (backend w)). }
  split.
  { intros Hnil. by rewrite H1, Hnil. }
  split; [reflexivity|]. split; [reflexivity|].
  split.
  { split; [reflexivity|]. cbn. repeat constructor. }
  split; [reflexivity|].
  split; [exact H2 | by rewrite H2].
Qed.

Lemma ensureAdmin_twice_one_admin_witness :
  length (admins (mkStore [] 1)) <= 1 /\
  length (admins (backend
    (after_ensureAdmin healthy false
       (after_ensureAdmin healthy false (mkWorld (mkStore [] 1) [] []))))) = 1.
Proof.
  split; [cbn; lia|].
  pose proof (ensureAdmin_twice_one_admin healthy healthy false false
                (mkWorld (mkStore [] 1) [] [])) as H.
  cbn zeta in H. destruct H as (_ & _ & _ & _ & _ & _ & _ & Hone).
  - cbn. lia.
  - exact Hone.
Defined.

End AdminProps.

(** ** Logging call sites of the server *)

Module ServerProps.
Import Server.

Section Middleware.
Variable show : nat -> string.
Variable Json : Type.
Variable JSON_stringify : Json -> string.

(** The request middleware contains a failure of the logger: the handler
    returns, the line goes to [log] all the same, and the failure shows on
    [console.error] only. *)
Lemma onFinish_contains_logger_failure
    (lg : ExternalLogger) (req : Request) (statusCode duration : nat)
    (body : option Json) (p : Process) :
  let run := onFinish show Json JSON_stringify in
  let r := run lg req statusCode duration body p in
  let r0 := run healthy req statusCode duration body p in
  fst r = Ok tt /\
  viteLog (snd r) = viteLog (snd r0) /\
  stdout (snd r) = stdout (snd r0) /\
  listening (snd r) = listening (snd r0) /\
  (forall msg,
      String.prefix "/api" (path req) = true ->
      lg (ApiRequest (method req) (path req) statusCode duration) = Exn msg ->
      stderr (snd r) = (stderr p ++ [FailedToLogApiRequest msg])%list /\
      written (snd r) = written p).
Proof.
  unfold onFinish, try_catch, bind, external, vite_log, console_error, call,
    modify, healthy, ret.
  destruct (String.prefix "/api" (path req)).
  - destruct (lg (ApiRequest (method req) (path req) statusCode duration))
      as [[]|m] eqn:Hlg; cbn; (do 4 (split; [reflexivity|]));
      intros msg _ [=]; subst; by split.
  - cbn. do 4 (split; [reflexivity|]). intros msg [=].
Qed.

End Middleware.

(** So does the heartbeat. *)
Lemma heartbeat_contains_logger_failure (lg : ExternalLogger) (p : Process) :
  fst (heartbeat lg p) = Ok tt /\
  listening (snd (heartbeat lg p)) = listening p.
Proof.
  unfold heartbeat, try_catch, bind, external, console_error, call, modify.
  destruct (lg Heartbeat) as [[]|m]; cbn; by split.
Qed.

(** [startServer] passes a failure of the logger on: whenever the calls
    before it succeed and the logger throws on the 'server_startup' entry,
    [startServer] throws the same error and the listener is as it was. *)
Lemma startServer_propagates_logger_failure
    (lg : ExternalLogger) (e : StartEnv) (p : Process) (msg : string) :
  registerRoutes e = Ok tt ->
  (if production e then serveStatic e else setupVite e) = Ok tt ->
  lg (System "server_startup") = Exn msg ->
  startServer lg e p = (Exn msg, p).
Proof.
  intros Hr Hs Hl.
  unfold startServer, bind, call, external.
  rewrite Hr. destruct (production e); cbn [negb]; by rewrite Hs, Hl.
Qed.

(** With a logger that returns, it listens. *)
Lemma startServer_listens (e : StartEnv) (p : Process) :
  registerRoutes e = Ok tt ->
  (if production e then serveStatic e else setupVite e) = Ok tt ->
  fst (startServer healthy e p) = Ok tt /\
  listening (snd (startServer healthy e p)) = Some PORT.
Proof.
  intros Hr Hs.
  unfold startServer, bind, call, external, healthy, console_log, listen,
    modify.
  rewrite Hr. destruct (production e); cbn [negb]; by rewrite Hs.
Qed.

(** C5 — [startServer] does not contain a failure of the logger.  With
    every other call succeeding, a logger that throws on the
    'server_startup' entry makes [startServer] throw that very error before
    [server.listen] is reached: nothing listens, whereas with a logger that
    returns the server listens on the port.  The error reaches the [catch]
    of the caller, which reports a failed start. *)
Theorem startServer_logger_failure_prevents_listen :
  let lg := failing_on_system "ENOSPC: no space left on device" in
  fst (startServer lg good_env fresh_process)
  = Exn "ENOSPC: no space left on device" /\
  listening (snd (startServer lg good_env fresh_process)) = None /\
  fst (startServer healthy good_env fresh_process) = Ok tt /\
  listening (snd (startServer healthy good_env fresh_process)) = Some PORT /\
  stderr (snd (main lg good_env fresh_process))
  = [FailedToStartServer "ENOSPC: no space left on device"] /\
  listening (snd (main lg good_env fresh_process)) = None.
Proof. cbn. repeat split. Qed.

End ServerProps.

(** ** The server-monitoring page *)

Module MonitoringProps.
Import Monitoring.

Lemma check_required_nil (issue : Issue) (s : string) :
  check_required issue s = [] <-> s <> "".
Proof.
  unfold check_required. destruct s; cbn; split; congruence.
Qed.

Lemma check_refreshInterval_nil (n : Num) :
  check_refreshInterval n = [] <-> ~ outside_range n.
Proof.
  destruct n as [| | |q]; cbn; try (split; [discriminate | tauto]).
  destruct (Qle_bool 30 q) eqn:H1, (Qle_bool q 600) eqn:H2; cbn.
  - apply Qle_bool_iff in H1, H2. split; [|reflexivity].
    intros _ [H|H]; eapply Qlt_not_le; eassumption.
  - split; [discriminate|]. intros Hn. exfalso. apply Hn. right.
    apply Qnot_le_lt. intros H. apply Qle_bool_iff in H. congruence.
  - split; [discriminate|]. intros Hn. exfalso. apply Hn. left.
    apply Qnot_le_lt. intros H. apply Qle_bool_iff in H. congruence.
  - split; [discriminate|]. intros Hn. exfalso. apply Hn. left.
    apply Qnot_le_lt. intros H. apply Qle_bool_iff in H. congruence.
Qed.

Section Page.
Variable isUrl : string -> bool.
Variable JSON_stringify : ZabbixConfig -> string.

Lemma valid_true_iff (c : ZabbixConfig) :
  valid isUrl c = true <->
  isUrl (url c) = true /\ username c <> "" /\ password c <> "" /\
  ~ outside_range (refreshInterval c).
Proof.
  unfold valid, zabbixConfigSchema.
  rewrite <- (check_required_nil UsernameRequired),
    <- (check_required_nil PasswordRequired), <- check_refreshInterval_nil.
  destruct (isUrl (url c)), (check_required UsernameRequired (username c)),
    (check_required PasswordRequired (password c)),
    (check_refreshInterval (refreshInterval c)); cbn;
    intuition congruence.
Qed.

Lemma invalid_input_rejected (c : ZabbixConfig) :
  outside_range (refreshInterval c) \/ isUrl (url c) = false \/
  username c = "" \/ password c = "" ->
  valid isUrl c = false.
Proof.
  intros H. destruct (valid isUrl c) eqn:Hv; [| reflexivity].
  apply valid_true_iff in Hv as (Hu & Hn & Hp & Hr).
  destruct H as [H|[H|[H|H]]]; congruence || contradiction.
Qed.

(** C6 (as amended) — Validation gates the save.  When the refresh
    interval is no number between 30 and 600, or the URL, the username or
    the password is invalid, submitting the form fails validation: the
    issues are put on the form, no request is sent (neither the
    connectivity test nor any other), local storage keeps what it held and
    no toast is shown. *)
Theorem invalid_submit_sends_nothing
    (net : Network) (values : ZabbixConfig) (c : Client) :
  outside_range (refreshInterval values) \/ isUrl (url values) = false \/
  username values = "" \/ password values = "" ->
  let r := onSubmit isUrl JSON_stringify net values c in
  valid isUrl values = false /\
  fst r = Ok tt /\
  requests (snd r) = requests c /\
  localStorage (snd r) = localStorage c /\
  toasts (snd r) = toasts c /\
  invalidations (snd r) = invalidations c /\
  formErrors (snd r) = zabbixConfigSchema isUrl values /\
  formErrors (snd r) <> [].
Proof.
  intros Hbad r. pose proof (invalid_input_rejected values Hbad) as Hv.
  split; [exact Hv|]. subst r. unfold onSubmit.
  unfold valid in Hv.
  destruct (zabbixConfigSchema isUrl values) as [|i l]; [discriminate Hv|].
  cbn. repeat split. discriminate.
Qed.

(** C8 — Saving and the connectivity test.  A save sends the test request
    first, once; the configuration is written to local storage exactly when
    the test succeeds (the request is answered, with an ok status), and the
    page is then marked configured; otherwise local storage keeps what it
    held, the mutation throws, and the error is shown as a
    "Configuration Failed" toast. *)
Theorem save_persists_iff_test_succeeds
    (net : Network) (config : ZabbixConfig) (c : Client) :
  let req := mkRequest TestConnection (JSON_stringify config) in
  let fn := saveConfig_mutationFn JSON_stringify net config c in
  let c' := snd (saveConfigMutation_mutate JSON_stringify net config c) in
  requests c' = (requests c ++ [req])%list /\
  is_ok (fst fn) = test_succeeds net req /\
  localStorage c' =
    (if test_succeeds net req
     then <[config_key := JSON_stringify config]> (localStorage c)
     else localStorage c) /\
  isConfigured c' = (if test_succeeds net req then true else isConfigured c) /\
  (test_succeeds net req = true ->
   fst fn = Ok config /\ toasts c' = (toasts c ++ [ConfigurationSaved])%list) /\
  (test_succeeds net req = false ->
   exists msg, fst fn = Exn msg /\
               toasts c' = (toasts c ++ [ConfigurationFailed msg])%list).
Proof.
  intros req fn c'. subst fn c'.
  unfold saveConfigMutation_mutate, saveConfig_mutationFn, test_succeeds,
    try_catch, bind, fetch, call, setItem, toast, setIsConfigured,
    setShowSettings, invalidateQueries, throw, ret, modify.
  fold req. destruct c as [ls rq ts ic ss fe iv]. cbn.
  destruct (net req) as [[o j]|m]; cbn.
  - destruct o; cbn.
    + repeat split; try discriminate; reflexivity.
    + destruct j as [bd|m]; cbn; repeat split; try discriminate;
        intros _; eexists; split; reflexivity.
  - repeat split; try discriminate. intros _. eexists; split; reflexivity.
Qed.

End Page.

(** C6 (as stated) fails for the Test Connection button: with a refresh
    interval of 5 seconds the values do not pass the schema, and a click
    still sends the connectivity-test request. *)
Lemma test_connection_skips_validation :
  let values := sample_config 5 in
  let after := snd (perform sample_isUrl sample_stringify ClickTestConnection
                            accepting values fresh_client) in
  outside_range (refreshInterval values) /\
  valid sample_isUrl values = false /\
  requests fresh_client = [] /\
  requests after = [mkRequest TestConnection (sample_stringify values)].
Proof.
  cbn. repeat split. left. reflexivity.
Qed.

Lemma invalid_submit_sends_nothing_witness :
  outside_range (refreshInterval (sample_config 5)) /\
  requests (snd (onSubmit sample_isUrl sample_stringify accepting
                          (sample_config 5) fresh_client)) = [].
Proof.
  assert (Hout : outside_range (refreshInterval (sample_config 5)))
    by (left; reflexivity).
  split; [exact Hout|].
  pose proof (invalid_submit_sends_nothing sample_isUrl sample_stringify
                accepting (sample_config 5) fresh_client (or_introl Hout)) as H.
  cbn zeta in H. destruct H as (_ & _ & Hreq & _). exact Hreq.
Defined.

(** *** Retry policy *)

Lemma retry_auth (failureCount : nat) (msg : string) :
  auth_error msg = true -> retry failureCount msg = false.
Proof. unfold retry, auth_error. by intros ->. Qed.

Lemma retry_other (failureCount : nat) (msg : string) :
  auth_error msg = false -> retry failureCount msg = Nat.ltb failureCount 3.
Proof. unfold retry, auth_error. by intros ->. Qed.

Lemma retryDelay_capped (n : nat) : (retryDelay n <= 30000)%Z.
Proof. unfold retryDelay. lia. Qed.

(** From the sixth retry on the delay is the cap. *)
Lemma retryDelay_at_cap (n : nat) : 5 <= n -> retryDelay n = 30000%Z.
Proof.
  intros Hn. unfold retryDelay. apply Z.min_r.
  assert (2 ^ 5 <= 2 ^ Z.of_nat n)%Z by (apply Z.pow_le_mono_r; lia).
  lia.
Qed.

(** C7 — Retry policy of the metrics query.  An error whose message
    contains "Authentication" or "401" is never retried: the first such
    failure reaches the caller with no retry.  When the calls keep failing
    with other errors the query function is retried exactly three times,
    after 1000, 2000 and 4000 milliseconds, and the error of the fourth
    call reaches the caller.  The delay before retry [n] is
    [min (1000 * 2 ^ n) 30000] milliseconds, at most 30000. *)
Theorem retry_policy :
  (forall failureCount msg,
      includes "Authentication" msg = true \/ includes "401" msg = true ->
      retry failureCount msg = false) /\
  (forall (A : Type) (fuel : nat) (queryFn : nat -> Result A) msg,
      includes "Authentication" msg = true \/ includes "401" msg = true ->
      queryFn 0 = Exn msg ->
      retryer (S fuel) queryFn 0 = Some (Exn msg, [])) /\
  (forall (A : Type) (fuel : nat) (queryFn : nat -> Result A),
      (forall i, i <= 3 ->
                 exists msg, queryFn i = Exn msg /\
                             includes "Authentication" msg = false /\
                             includes "401" msg = false) ->
      4 <= fuel ->
      exists msg,
        queryFn 3 = Exn msg /\
        retryer fuel queryFn 0 = Some (Exn msg, [1000; 2000; 4000]%Z)) /\
  (forall n,
      retryDelay n = Z.min (1000 * 2 ^ Z.of_nat n) 30000 /\
      (retryDelay n <= 30000)%Z).
Proof.
  split; [| split; [| split]].
  - intros fc msg Hauth. apply retry_auth. unfold auth_error.
    apply orb_true_iff. exact Hauth.
  - intros A fuel queryFn msg Hauth H0. cbn [retryer]. rewrite H0.
    rewrite retry_auth; [reflexivity|].
    unfold auth_error. apply orb_true_iff. exact Hauth.
  - intros A fuel queryFn Hfail Hfuel.
    destruct (Hfail 0) as (m0 & E0 & A0 & B0); [lia|].
    destruct (Hfail 1) as (m1 & E1 & A1 & B1); [lia|].
    destruct (Hfail 2) as (m2 & E2 & A2 & B2); [lia|].
    destruct (Hfail 3) as (m3 & E3 & A3 & B3); [lia|].
    exists m3. split; [exact E3|].
    do 4 (destruct fuel as [|fuel]; [lia|]).
    cbn [retryer]. rewrite E0, E1, E2, E3.
    rewrite !retry_other by (unfold auth_error; by rewrite ?A0, ?A1, ?A2, ?A3,
                               ?B0, ?B1, ?B2, ?B3).
    reflexivity.
  - intros n. split; [reflexivity | apply retryDelay_capped].
Qed.

Lemma retry_policy_witness :
  retryer 4 (always_failing "Network request failed") 0
  = Some (Exn "Network request failed", [1000; 2000; 4000]%Z) /\
  retryer 1 (always_failing "HTTP 401: Unauthorized") 0
  = Some (Exn "HTTP 401: Unauthorized", []).
Proof.
  destruct retry_policy as (_ & Hauth & Hother & _).
  split.
  - destruct (Hother ServerMetrics 4 (always_failing "Network request failed"))
      as (msg & Hmsg & Hrun).
    + intros i _. exists "Network request failed". repeat split.
    + lia.
    + injection Hmsg as <-. exact Hrun.
  - apply Hauth; [right; reflexivity | reflexivity].
Defined.

(** *** Availability *)

Lemma is_zero_true (q : Q) : is_zero q = true <-> (q == 0)%Q.
Proof. unfold is_zero. apply Qeq_bool_iff. Qed.

Lemma is_zero_false (q : Q) : is_zero q = false <-> ~ (q == 0)%Q.
Proof.
  rewrite <- is_zero_true. destruct (is_zero q); split; congruence.
Qed.

Lemma or_default_nonzero (q d : Q) :
  ~ (q == 0)%Q -> or_default (Some q) d = q.
Proof. intros H. cbn. apply is_zero_false in H. by rewrite H. Qed.

Lemma or_default_eq (q : Q) : (or_default (Some q) 0 == q)%Q.
Proof.
  cbn. destruct (is_zero q) eqn:H; [| reflexivity].
  apply is_zero_true in H. by rewrite H.
Qed.

(** C10 — Availability is guarded against a zero total.  When
    [totalHosts] is zero both figures are the number 0, although the bare
    quotient would be NaN or infinite; when it is positive both are the
    finite number availableHosts / totalHosts × 100; without metrics both
    are 0. *)
Theorem availability_guarded (m : ServerMetrics) :
  ((totalHosts m == 0)%Q ->
   availabilityBar (Some m) = Fin 0 /\
   availabilitySummary (Some m) = Fin 0 /\
   (unguarded m = NaN \/ unguarded m = PosInf \/ unguarded m = NegInf)) /\
  ((0 < totalHosts m)%Q ->
   availabilityBar (Some m)
   = Fin (availableHosts m / totalHosts m * 100) /\
   exists q, availabilitySummary (Some m) = Fin q /\
             (q == availableHosts m / totalHosts m * 100)%Q) /\
  availabilityBar None = Fin 0 /\
  availabilitySummary None = Fin 0.
Proof.
  split; [| split; [| split; reflexivity]].
  - intros Hz. apply is_zero_true in Hz.
    unfold availabilityBar, availabilitySummary, unguarded, js_div.
    cbn [option_map or_default]. rewrite Hz. cbn [negb].
    repeat split.
    destruct (is_zero (availableHosts m)); [by left|].
    destruct (Qle_bool 0 (availableHosts m)); cbn; auto.
  - intros Hpos.
    assert (Hnz : ~ (totalHosts m == 0)%Q).
    { intros Heq. rewrite Heq in Hpos. by apply Qlt_irrefl in Hpos. }
    pose proof Hnz as Hb. apply is_zero_false in Hb.
    unfold availabilityBar, availabilitySummary, js_div.
    cbn [option_map]. rewrite !or_default_nonzero by exact Hnz.
    rewrite Hb. cbn [negb js_times]. split; [reflexivity|].
    eexists. split; [reflexivity|].
    by rewrite or_default_eq.
Qed.

Lemma availability_guarded_witness :
  availabilityBar (Some (mkMetrics 0 0 0 0 0)) = Fin 0 /\
  availabilitySummary (Some (mkMetrics 0 0 0 0 0)) = Fin 0 /\
  unguarded (mkMetrics 0 0 0 0 0) = NaN /\
  availabilityBar (Some (mkMetrics 4 3 1 0 0)) = Fin (3 / 4 * 100).
Proof.
  destruct (availability_guarded (mkMetrics 0 0 0 0 0)) as ((Hbar & Hsum & _) & _);
    [reflexivity|].
  destruct (availability_guarded (mkMetrics 4 3 1 0 0)) as (_ & (Hpos & _) & _);
    [reflexivity|].
  split; [exact Hbar|]. split; [exact Hsum|].
  split; [reflexivity | exact Hpos].
Defined.

End MonitoringProps.

(** ** More on the bootstrap *)

Module BootstrapMore.
Import Bootstrap BootstrapProps.

(** The direct probe verifies the connection exactly when a target is
    configured, a handle exists and [SELECT 1] returns at least one row: an
    exception, a falsy result, a result without [rows] and an empty result
    all leave the signal false. *)
Theorem probe_verifies_iff_rows (e : Env) :
  actualConnectionVerified e = true <->
  truthy_string (DATABASE_URL e) = true /\
  exists db n, freshDb e = Some db /\ select1 db = Ok (Some (Some (S n))).
Proof.
  unfold actualConnectionVerified, directProbe.
  destruct (truthy_string (DATABASE_URL e)).
  2:{ cbn. split; [discriminate | intros [[=] _]]. }
  destruct (freshDb e) as [[q1 q2]|].
  2:{ cbn. split; [discriminate | intros (_ & db & n & [=] & _)]. }
  destruct q1 as [[[[|n]|]|]|msg], q2 as [[]|msg']; cbn; split; intros H;
    first [ discriminate H
          | reflexivity
          | by (split; [reflexivity | eauto])
          | destruct H as (_ & db & k & [= <-] & Hsel); cbn in Hsel;
            discriminate Hsel ].
Qed.

(** Without a configured target, or without a handle, the bootstrap sends
    no query and starts no migration whatever the two flags say: it prints
    its four lines, leaves the heap alone and uses the in-memory backend. *)
Theorem no_target_means_memory (e : Env) (h : Heap) :
  truthy_string (DATABASE_URL e) = false \/ freshDb e = None ->
  bootstrap e h =
  (Ok tt,
   mkState h false
     [StartingInitialization; PostgresNotAvailable; DataWillNotPersist;
      SetUpPostgresHint]).
Proof.
  intros Hno. rewrite bootstrap_unfold.
  assert (Hprobe : probeLines e = []).
  { unfold probeLines, directProbe.
    destruct Hno as [-> | ->]; [reflexivity|].
    by destruct (truthy_string (DATABASE_URL e)). }
  assert (Hsel : selected e = InMemory).
  { unfold selected, selectDurable.
    destruct Hno as [-> | ->]; [by rewrite andb_false_r|].
    cbn. by rewrite andb_false_r. }
  rewrite Hsel. unfold preamble. by rewrite Hprobe.
Qed.

Lemma no_target_means_memory_witness :
  freshDb (mkEnv (Some "postgres://db") true true None (Ok tt) (Ok tt) (Ok tt) [])
  = None /\
  usingDatabase
    (snd (bootstrap
            (mkEnv (Some "postgres://db") true true None (Ok tt) (Ok tt) (Ok tt) [])
            sample_heap)) = false.
Proof.
  split; [reflexivity|].
  rewrite (no_target_means_memory
             (mkEnv (Some "postgres://db") true true None (Ok tt) (Ok tt) (Ok tt) [])
             sample_heap (or_intror eq_refl)).
  reflexivity.
Defined.

(** The bootstrap returns for every environment, and the heap is the one it
    started with exactly when it ends on the in-memory backend. *)
Theorem bootstrap_always_returns (e : Env) (h : Heap) :
  fst (bootstrap e h) = Ok tt /\
  (heap (snd (bootstrap e h)) = h <->
   usingDatabase (snd (bootstrap e h)) = false).
Proof.
  split; [apply bootstrap_returns|].
  rewrite bootstrap_unfold. destruct (selected e); [by split|].
  destruct (runMigrations e) as [[]|m] eqn:Hm;
    [| by erewrite attempt_migration_fails].
  destruct (initializeDatabase e) as [[]|m] eqn:Hi;
    [| by erewrite attempt_initialize_fails].
  destruct (newDatabaseStorage e) as [[]|m] eqn:Hc;
    [| by erewrite attempt_constructor_fails].
  rewrite attempt_succeeds by assumption. cbn [snd heap usingDatabase].
  split; [| discriminate].
  intros Heq. exfalso.
  assert (Hfresh : h !! fresh (dom h) = None).
  { apply not_elem_of_dom. apply is_fresh. }
  set (i := fresh (dom h)) in *.
  assert (Hl : alter (rebindAll (DatabaseStorage_prototype e) i) storage
                     (<[i := ∅]> h) !! i = None)
    by (rewrite Heq; exact Hfresh).
  destruct (decide (i = storage)) as [Hs|Hs].
  - rewrite Hs in Hl. rewrite lookup_alter_eq, lookup_insert_eq in Hl.
    discriminate Hl.
  - rewrite lookup_alter_ne, lookup_insert_eq in Hl by congruence.
    discriminate Hl.
Qed.

(** The loop of lines 124-128 keeps every property the handle had and adds
    exactly the function-valued names of the prototype other than
    [constructor]. *)
Theorem rebindAll_names proto inst (obj : Object) (name : string) :
  is_Some (rebindAll proto inst obj !! name) <->
  is_Some (obj !! name) \/ (In (name, true) proto /\ name <> "constructor").
Proof.
  unfold rebindAll. revert obj.
  induction proto as [|[n b] proto IH]; intros obj; cbn [fold_left].
  - cbn. intuition.
  - rewrite IH. unfold rebind.
    destruct (String.eqb_spec n "constructor") as [Hn|Hn]; cbn [negb andb].
    + cbn. split; [intros [?|[? ?]]; auto | ].
      intros [?|[[Heq|?] ?]]; auto. injection Heq as -> ->. contradiction.
    + destruct b.
      * rewrite lookup_insert_is_Some. cbn.
        split.
        -- intros [[<-|[_ ?]]|[? ?]]; auto.
        -- intros [?|[[[= -> ]|?] ?]]; auto.
           destruct (decide (n = name)); auto.
      * cbn. split; [intros [?|[? ?]]; auto | ].
        intros [?|[[[=]|?] ?]]; auto.
Qed.

End BootstrapMore.

(** ** More on the HTTP side *)

Module ServerMore.
Import Server Shutdown.

Lemma append_cons (x : Ascii.ascii) (a b : string) :
  String x a ++ b = String x (a ++ b).
Proof. reflexivity. Qed.


Lemma prefix_append (a b : string) : String.prefix a (a ++ b) = true.
Proof.
  induction a as [|c a IH]; [by destruct b|]. rewrite append_cons. simpl.
  destruct (Ascii.ascii_dec c c); [exact IH | contradiction].
Qed.



Section Middleware.
Variable show : nat -> string.
Variable Json : Type.
Variable JSON_stringify : Json -> string.


(** A request outside [/api] leaves the process untouched.  A request
    under [/api] hands exactly one line to [log] whether or not the
    external logger works, the handler returns, and the external log gains
    at most the entry of this request. *)
Theorem onFinish_effects (lg : ExternalLogger) (req : Request)
    (statusCode duration : nat) (body : option Json) (p : Process) :
  let r := onFinish show Json JSON_stringify lg req statusCode duration body p in
  let entry := ApiRequest (method req) (path req) statusCode duration in
  fst r = Ok tt /\
  (if String.prefix "/api" (path req)
   then viteLog (snd r)
        = (viteLog p ++
           [logLine show Json JSON_stringify req statusCode duration body])%list
        /\ stdout (snd r) = stdout p
        /\ listening (snd r) = listening p
        /\ (written (snd r), stderr (snd r))
           = match lg entry with
             | Ok _ => ((written p ++ [entry])%list, stderr p)
             | Exn msg => (written p,
                           (stderr p ++ [FailedToLogApiRequest msg])%list)
             end
   else snd r = p).
Proof.
  unfold onFinish, try_catch, bind, external, vite_log, console_error, call,
    modify, ret.
  destruct (String.prefix "/api" (path req)).
  - destruct (lg (ApiRequest (method req) (path req) statusCode duration))
      as [[]|m]; cbn; repeat split.
  - by split.
Qed.

End Middleware.

(** With a logger that works, [main] always returns.  When the calls before
    the listener succeed the server listens on the port and the two startup
    entries are written; when one fails nothing listens, the failure goes
    to [console.error] and one critical entry is written. *)
Theorem main_reports_failed_start (e : StartEnv) (p : Process) :
  let r := main healthy e p in
  fst r = Ok tt /\
  (if setup_ok e
   then listening (snd r) = Some PORT
        /\ stderr (snd r) = stderr p
        /\ written (snd r)
           = (written p ++ [System "server_startup"; Lifecycle "startup"])%list
   else listening (snd r) = listening p
        /\ stderr (snd r)
           = (stderr p ++ [FailedToStartServer (setup_error e)])%list
        /\ written (snd r)
           = (written p ++ [Critical "Server startup failed" "startup"])%list).
Proof.
  unfold main, startServer, setup_ok, setup_error, try_catch, bind, external,
    call, healthy, console_log, console_error, vite_log, listen, modify.
  destruct (registerRoutes e) as [[]|m]; cbn; [| by repeat split].
  destruct (production e); cbn.
  - destruct (serveStatic e) as [[]|m]; cbn; repeat split;
      by rewrite <- app_assoc.
  - destruct (setupVite e) as [[]|m]; cbn; repeat split;
      by rewrite <- app_assoc.
Qed.

(** Neither a tick of the heartbeat nor a termination signal stops the
    listener.  Once a signal has been handled (the logger took the shutdown
    entry) the timer is cleared and later ticks write nothing; when the
    logger throws on the shutdown entry the handler ends before
    [clearInterval] and the timer stays as it was. *)
Theorem signal_stops_heartbeat_only (lg : ExternalLogger) (r : Runtime) :
  (forall evs, listening (process (run lg evs r)) = listening (process r)) /\
  (lg (Lifecycle "shutdown") = Ok tt ->
   forall n,
     run lg (Signal :: List.repeat Tick n) r
     = mkRuntime (mkProcess (viteLog (process r)) (stdout (process r))
                            (stderr (process r))
                            (written (process r) ++ [Lifecycle "shutdown"])
                            (listening (process r)))
                 false) /\
  (forall msg,
     lg (Lifecycle "shutdown") = Exn msg ->
     onSignal lg r = (Exn msg, r)).
Proof.
  split; [| split].
  - intros evs. revert r.
    induction evs as [|ev evs IH]; intros r; [reflexivity|].
    cbn [run]. rewrite IH. destruct ev; cbn.
    + unfold onTick. destruct (heartbeatInterval r); [| reflexivity].
      unfold in_process, heartbeat, try_catch, bind, external, call,
        console_error, modify.
      by destruct (lg Heartbeat) as [[]|m].
    + unfold onSignal, in_process, bind, external, call, clearInterval, modify.
      by destruct (lg (Lifecycle "shutdown")) as [[]|m].
  - intros Hlg n. cbn [run handle].
    unfold onSignal, in_process, bind, external, call, clearInterval, modify.
    rewrite Hlg. cbn.
    induction n as [|n IH]; [reflexivity|]. cbn [List.repeat run handle].
    unfold onTick at 1. cbn [heartbeatInterval snd]. exact IH.
  - intros msg Hlg.
    unfold onSignal, in_process, bind, external, call.
    rewrite Hlg. by destruct r.
Qed.

End ServerMore.

(** ** More on the default-admin step *)

Module AdminMore.
Import Admin Scripted.

(** Whatever the backend does, the step throws only when the logger throws
    on the error entry: with a logger that takes that entry the step
    returns, so a failed lookup or a failed creation never escapes. *)
Theorem ensureAdmin_contains_backend_failure
    {B : Type} `{IStorage B}
    (lg : ExternalLogger) (ud : bool) (w : World B) :
  lg (System "user_creation_error") = Ok tt ->
  fst (ensureAdmin lg ud w) = Ok tt.
Proof.
  intros Hlg.
  unfold ensureAdmin, try_catch, bind, on_storage, external, log, call, modify.
  destruct w as [b c wr]. cbn.
  destruct (getUserByUsername "admin" b) as [[[u|]|m] b1]; cbn.
  - reflexivity.
  - destruct (createUser defaultAdmin b1) as [[u|m] b2]; cbn.
    + destruct (lg (System "user_creation")) as [[]|m]; cbn; [reflexivity|].
      by rewrite Hlg.
    + by rewrite Hlg.
  - by rewrite Hlg.
Qed.

Lemma ensureAdmin_contains_backend_failure_witness :
  healthy (System "user_creation_error") = Ok tt /\
  fst (ensureAdmin healthy true (mkWorld tt [] [] : World Unreachable)) = Ok tt.
Proof.
  split; [reflexivity|].
  apply (ensureAdmin_contains_backend_failure healthy true
           (mkWorld tt [] [] : World Unreachable)).
  reflexivity.
Defined.

(** The calls of one run, on a backend that records them: one lookup of
    "admin" first, and then one [createUser] with the default fields
    exactly when the lookup returned nothing; a lookup that throws or finds
    an account is followed by no call. *)
Theorem ensureAdmin_calls (lg : ExternalLogger) (ud : bool) (w : World Script) :
  calls (backend (after_ensureAdmin lg ud w))
  = (calls (backend w) ++ expected_calls (lookupAnswer (backend w)))%list.
Proof.
  unfold after_ensureAdmin, ensureAdmin, try_catch, bind, on_storage, external,
    log, call, modify, expected_calls.
  destruct w as [[la ca cs] c wr]. cbn.
  destruct la as [[u|]|m]; cbn.
  - reflexivity.
  - destruct ca as [u|m]; cbn.
    + destruct (lg (System "user_creation")) as [[]|m]; cbn;
        [by rewrite <- app_assoc|].
      destruct (lg (System "user_creation_error")) as [[]|m']; cbn;
        by rewrite <- app_assoc.
    + destruct (lg (System "user_creation_error")) as [[]|m']; cbn;
        by rewrite <- app_assoc.
  - destruct (lg (System "user_creation_error")) as [[]|m']; reflexivity.
Qed.

End AdminMore.

(** ** [getLocalIP] *)

Module InterfacesProps.
Import Interfaces.

Lemma scan_find (nets : list NetworkInterfaceInfo) :
  scan nets = option_map address (List.find external_ipv4 nets).
Proof.
  induction nets as [|net nets IH]; [reflexivity|].
  cbn. destruct (external_ipv4 net); [reflexivity | exact IH].
Qed.

Lemma find_append {A} (p : A -> bool) (l1 l2 : list A) :
  List.find p (l1 ++ l2) =
  match List.find p l1 with
  | Some x => Some x
  | None => List.find p l2
  end.
Proof.
  induction l1 as [|a l1 IH]; [reflexivity|].
  cbn. destruct (p a); [reflexivity | exact IH].
Qed.

(** [getLocalIP] returns the address of the first entry, over all
    interfaces in their order, that is IPv4 and not internal; when there is
    none (no interface at all, interfaces without addresses, only IPv6 or
    internal ones) it returns 127.0.0.1. *)
Theorem getLocalIP_first_external (interfaces : NetworkInterfaces) :
  getLocalIP interfaces =
  match List.find external_ipv4 (all_addresses interfaces) with
  | Some net => address net
  | None => "127.0.0.1"
  end.
Proof.
  unfold all_addresses.
  induction interfaces as [|[name nets] rest IH]; [reflexivity|].
  cbn [getLocalIP List.map List.concat snd].
  rewrite find_append, scan_find.
  destruct (List.find external_ipv4 (or_empty nets)); [reflexivity | exact IH].
Qed.

End InterfacesProps.

(** ** More on the settings form, the retry policy and the availability *)

Module MonitoringMore.
Import Monitoring MonitoringProps.

(** The schema accepts the values exactly when the URL parses, username and
    password are not empty and the refresh interval is a finite number
    between 30 and 600, both bounds included. *)
Theorem schema_accepts_iff (isUrl : string -> bool) (c : ZabbixConfig) :
  zabbixConfigSchema isUrl c = [] <->
  isUrl (url c) = true /\ username c <> "" /\ password c <> "" /\
  exists q, refreshInterval c = Fin q /\ (30 <= q)%Q /\ (q <= 600)%Q.
Proof.
  assert (Hv : zabbixConfigSchema isUrl c = [] <-> valid isUrl c = true).
  { unfold valid. destruct (zabbixConfigSchema isUrl c); split; congruence. }
  rewrite Hv, (valid_true_iff isUrl (fun _ => "")).
  assert (Hr : ~ outside_range (refreshInterval c) <->
               exists q, refreshInterval c = Fin q /\ (30 <= q)%Q /\ (q <= 600)%Q).
  { destruct (refreshInterval c) as [| | |q]; cbn;
      try (split; [tauto | intros (q & [=] & _)]).
    split.
    - intros Hn. exists q. split; [reflexivity|].
      split; apply Qnot_lt_le; intros Hlt; apply Hn; [by left | by right].
    - intros (q' & Heq & H1 & H2). injection Heq as <-.
      intros [Hlt|Hlt]; eapply Qlt_not_le; eassumption. }
  rewrite Hr. tauto.
Qed.

(** The Test Connection button sends one request and shows one toast; it
    never writes to local storage, never marks the page configured and
    never closes the settings, whatever the server answers. *)
Theorem test_connection_never_persists
    (JSON_stringify : ZabbixConfig -> string)
    (net : Network) (values : ZabbixConfig) (c : Client) :
  let r := onClickTestConnection JSON_stringify net values c in
  fst r = Ok tt /\
  localStorage (snd r) = localStorage c /\
  isConfigured (snd r) = isConfigured c /\
  showSettings (snd r) = showSettings c /\
  invalidations (snd r) = invalidations c /\
  requests (snd r)
  = (requests c ++ [mkRequest TestConnection (JSON_stringify values)])%list /\
  exists t, toasts (snd r) = (toasts c ++ [t])%list.
Proof.
  unfold onClickTestConnection, testConnectionMutation_mutate,
    testConnection_mutationFn, try_catch, bind, fetch, call, toast, throw,
    modify.
  destruct c as [ls rq ts ic ss fe iv]. cbn.
  destruct (net _) as [[o j]|m]; cbn.
  - destruct o, j as [bd|m]; cbn; repeat split; eexists; reflexivity.
  - repeat split; eexists; reflexivity.
Qed.

Ltac slept delays E :=
  exists delays; cbn [length]; rewrite E;
  split; [reflexivity | split; [reflexivity | cbn; lia]].

Lemma retry_never_after_three (msg : string) : retry 3 msg = false.
Proof. unfold retry. by destruct (_ || _). Qed.

(** Whatever the calls return, the retry loop ends within four calls: it
    sleeps at most three times, for 1000, 2000 and 4000 milliseconds in
    that order, and what reaches the caller is the outcome of the last call
    made. *)
Theorem retryer_at_most_three_retries
    {A : Type} (fuel : nat) (queryFn : nat -> Result A) :
  4 <= fuel ->
  exists delays,
    retryer fuel queryFn 0 = Some (queryFn (length delays), delays) /\
    delays = List.firstn (length delays) [1000; 2000; 4000]%Z /\
    length delays <= 3.
Proof.
  intros Hfuel. do 4 (destruct fuel as [|fuel]; [lia|]). clear Hfuel.
  cbn [retryer].
  destruct (queryFn 0) as [d|e0] eqn:E0; [slept (@nil Z) E0|].
  destruct (retry 0 e0); [| slept (@nil Z) E0].
  destruct (queryFn 1) as [d|e1] eqn:E1; [slept [1000%Z] E1|].
  destruct (retry 1 e1); [| slept [1000%Z] E1].
  destruct (queryFn 2) as [d|e2] eqn:E2; [slept [1000; 2000]%Z E2|].
  destruct (retry 2 e2); [| slept [1000; 2000]%Z E2].
  destruct (queryFn 3) as [d|e3] eqn:E3; [slept [1000; 2000; 4000]%Z E3|].
  rewrite retry_never_after_three. slept [1000; 2000; 4000]%Z E3.
Qed.

Lemma retryer_at_most_three_retries_witness :
  4 <= 4 /\
  exists delays,
    retryer 4 (always_failing "Network request failed") 0
    = Some (always_failing "Network request failed" (length delays), delays) /\
    length delays <= 3.
Proof.
  split; [lia|].
  destruct (retryer_at_most_three_retries 4
              (always_failing "Network request failed")) as (delays & H1 & _ & H3);
    [lia|].
  exists delays. by split.
Defined.

(** The delay doubles from 1000 milliseconds up to the fifth retry and is
    30000 from the sixth on; it never decreases. *)
Theorem retryDelay_doubles_then_caps (n : nat) :
  (n <= 4 -> retryDelay n = (1000 * 2 ^ Z.of_nat n)%Z) /\
  (5 <= n -> retryDelay n = 30000%Z) /\
  (retryDelay n <= retryDelay (S n))%Z.
Proof.
  split; [| split].
  - intros Hn. unfold retryDelay. apply Z.min_l.
    assert (2 ^ Z.of_nat n <= 2 ^ 4)%Z by (apply Z.pow_le_mono_r; lia).
    lia.
  - apply retryDelay_at_cap.
  - unfold retryDelay.
    assert (2 ^ Z.of_nat n <= 2 ^ Z.of_nat (S n))%Z
      by (apply Z.pow_le_mono_r; lia).
    lia.
Qed.

(** The two availability figures are always finite and always agree; they
    lie between 0 and 100 when the available hosts are between none and
    all. *)
Theorem availability_figures_agree (metrics : option ServerMetrics) :
  exists bar summary,
    availabilityBar metrics = Fin bar /\
    availabilitySummary metrics = Fin summary /\
    (bar == summary)%Q /\
    (forall m, metrics = Some m ->
               (0 <= availableHosts m)%Q ->
               (availableHosts m <= totalHosts m)%Q ->
               (0 <= bar)%Q /\ (bar <= 100)%Q).
Proof.
  destruct metrics as [m|].
  2:{ exists 0%Q, 0%Q. do 3 (split; [reflexivity|]). intros m [=]. }
  destruct (is_zero (totalHosts m)) eqn:Hz.
  - exists 0%Q, 0%Q.
    unfold availabilityBar, availabilitySummary. cbn [option_map or_default].
    rewrite Hz. cbn. do 3 (split; [reflexivity|]).
    intros _ _ _ _. split; discriminate.
  - pose proof Hz as Hnz. apply is_zero_false in Hnz.
    exists (availableHosts m / totalHosts m * 100)%Q,
           (or_default (Some (availableHosts m)) 0 / totalHosts m * 100)%Q.
    unfold availabilityBar, availabilitySummary, js_div.
    cbn [option_map]. rewrite !or_default_nonzero by exact Hnz.
    rewrite Hz. cbn [negb js_times].
    split; [reflexivity|]. split; [reflexivity|].
    split; [by rewrite or_default_eq|].
    intros m' [= <-] H0 Hle.
    assert (Hpos : (0 < totalHosts m)%Q).
    { destruct (Qlt_le_dec 0 (totalHosts m)) as [?|Hneg]; [assumption|].
      exfalso. apply Hnz. apply Qle_antisym; [exact Hneg|].
      eapply Qle_trans; eassumption. }
    split.
    + apply Qmult_le_0_compat; [| discriminate].
      apply Qle_shift_div_l; [exact Hpos|]. by rewrite Qmult_0_l.
    + apply Qle_trans with (1 * 100)%Q; [| discriminate].
      apply Qmult_le_compat_r; [| discriminate].
      apply Qle_shift_div_r; [exact Hpos|]. by rewrite Qmult_1_l.
Qed.

End MonitoringMore.

(** ** The metrics query and the saved configuration *)

Module MetricsQueryProps.
Import Monitoring MonitoringProps MetricsQuery ServerMore.

Lemma substring_skip (pre s : string) (n : nat) :
  String.substring (String.length pre) n (pre ++ s) = String.substring 0 n s.
Proof.
  induction pre as [|c pre IH]; [reflexivity|].
  rewrite append_cons. simpl. exact IH.
Qed.

(** A text that holds the needle between two others includes it. *)
Lemma includes_middle (needle pre suf : string) :
  needle <> "" -> includes needle (pre ++ needle ++ suf) = true.
Proof.
  intros Hne. unfold includes.
  destruct (String.index 0 needle (pre ++ needle ++ suf)) eqn:Hidx;
    [reflexivity|].
  exfalso.
  apply (index_correct3 0 (String.length pre) _ _ Hidx Hne); [lia|].
  rewrite substring_skip. apply prefix_correct. apply prefix_append.
Qed.

Lemma message_or_falsy (m : option string) (fallback : string) :
  truthy_string m = false -> message_or m fallback = fallback.
Proof.
  destruct m as [s|]; cbn; [| reflexivity].
  by destruct (String.eqb s "").
Qed.

Section Query.
Variable JSON_parse : string -> Result Stored.
Variable JSON_stringify : Stored -> string.

Lemma complete_config_truthy (c : Client) (config : Stored) :
  complete_config JSON_parse c = Some config ->
  exists u n p,
    config = SValue u n p /\
    JSON_parse (item_or (localStorage c !! config_key) "{}") = Ok config /\
    truthy_string u = true /\ truthy_string n = true /\
    truthy_string p = true.
Proof.
  unfold complete_config.
  destruct (JSON_parse _) as [[|u n p]|m]; try discriminate.
  destruct (truthy_string u) eqn:Hu, (truthy_string n) eqn:Hn,
    (truthy_string p) eqn:Hp; cbn; try discriminate.
  intros [= <-]. by exists u, n, p.
Qed.

(** The query function sends the metrics request exactly when the stored
    text parses to a value with a truthy url, username and password, and
    then sends it once; otherwise (nothing stored, a text that does not
    parse, [null], a field missing or empty) it throws without any request.
    It never writes to local storage. *)
Theorem queryFn_sends_only_complete_config (net : MetricsNetwork) (c : Client) :
  let r := queryFn JSON_parse JSON_stringify net c in
  requests (snd r)
  = (requests c ++ sent_by_query JSON_parse JSON_stringify c)%list /\
  localStorage (snd r) = localStorage c /\
  (sent_by_query JSON_parse JSON_stringify c = [] -> is_ok (fst r) = false).
Proof.
  unfold queryFn, sent_by_query, complete_config, bind, get, call, throw,
    fetchMetrics, modify, ret.
  destruct c as [ls rq ts ic ss fe iv]. cbn [localStorage requests].
  destruct (JSON_parse _) as [[|u n p]|m]; cbn;
    try (by rewrite app_nil_r).
  destruct (truthy_string u), (truthy_string n), (truthy_string p); cbn;
    try (by rewrite app_nil_r).
  split; [| split; [| discriminate]].
  - destruct (net _) as [[o st stt [[| |f]|m]]|m]; try destruct o; reflexivity.
  - destruct (net _) as [[o st stt [[| |f]|m]]|m]; try destruct o; reflexivity.
Qed.

(** The query succeeds exactly when the configuration is complete, the
    request is answered with an ok status and the body is an object; its
    result is then that object with the missing numbers as 0 and the
    missing lists empty. *)
Theorem queryFn_succeeds_iff (net : MetricsNetwork) (c : Client)
                             (result : QueryResult) :
  fst (queryFn JSON_parse JSON_stringify net c) = Ok result <->
  exists config response data,
    complete_config JSON_parse c = Some config /\
    net (mkRequest Metrics (JSON_stringify config)) = Ok response /\
    m_ok response = true /\
    m_json response = Ok (JObject data) /\
    result = with_defaults data.
Proof.
  unfold queryFn, complete_config, bind, get, call, throw, fetchMetrics,
    modify, ret.
  destruct c as [ls rq ts ic ss fe iv]. cbn [localStorage requests].
  destruct (JSON_parse _) as [[|u n p]|m]; cbn;
    try (split; [discriminate | by intros (? & ? & ? & [=] & _)]).
  destruct (truthy_string u), (truthy_string n), (truthy_string p); cbn;
    try (split; [discriminate | by intros (? & ? & ? & [=] & _)]).
  destruct (net _) as [[o st stt j]|m] eqn:Hnet; cbn.
  2:{ split; [discriminate|].
      intros (cf & rs & d & [= <-] & Hn & _). congruence. }
  destruct o; cbn.
  - destruct j as [[| |f]|m]; cbn;
      try (split; [discriminate|];
           intros (cf & rs & d & [= <-] & Hn & _ & Hj & _);
           rewrite Hnet in Hn; injection Hn as <-; discriminate Hj).
    split.
    + intros [= <-]. by exists (SValue u n p), (mkMetricsResponse true st stt (Ok (JObject f))), f.
    + intros (cf & rs & d & [= <-] & Hn & _ & Hj & ->).
      rewrite Hnet in Hn. injection Hn as <-. cbn in Hj. by injection Hj as <-.
  - split.
    + destruct j as [[| |f]|m]; discriminate.
    + intros (cf & rs & d & [= <-] & Hn & Hok & _).
      rewrite Hnet in Hn. injection Hn as <-. discriminate Hok.
Qed.

(** A response with status 401 whose body carries no text for the error is
    reported as "HTTP 401: …", and the retry policy makes no second call
    for it. *)
Theorem unauthorized_is_not_retried
    (net : MetricsNetwork) (c : Client) (config : Stored)
    (response : MetricsResponse) (fuel : nat) :
  complete_config JSON_parse c = Some config ->
  net (mkRequest Metrics (JSON_stringify config)) = Ok response ->
  m_ok response = false ->
  m_status response = 401 ->
  no_error_text (m_json response) = true ->
  fst (queryFn JSON_parse JSON_stringify net c)
  = Exn ("HTTP 401: " ++ m_statusText response) /\
  retryer (S fuel)
          (fun _ => fst (queryFn JSON_parse JSON_stringify net c)) 0
  = Some (Exn ("HTTP 401: " ++ m_statusText response), []).
Proof.
  intros Hc Hnet Hok Hst Hbody.
  destruct (complete_config_truthy c config Hc)
    as (u & n & p & -> & Hparse & Hu & Hn & Hp).
  assert (Hq : fst (queryFn JSON_parse JSON_stringify net c)
               = Exn ("HTTP 401: " ++ m_statusText response)).
  { unfold queryFn, bind, get, call, throw, fetchMetrics, modify.
    assert (Hm : http_message response = "HTTP 401: " ++ m_statusText response).
    { unfold http_message. rewrite Hst. reflexivity. }
    rewrite Hparse. cbn -[http_message]. rewrite Hu, Hn, Hp.
    cbn -[http_message]. rewrite Hnet, Hok. cbn -[http_message].
    destruct (m_json response) as [[| |f]|m]; cbn -[http_message] in *;
      try discriminate Hbody; rewrite ?Hm; try reflexivity.
    apply andb_true_iff in Hbody as [H1 H2].
    apply negb_true_iff in H1, H2.
    unfold first_truthy. by rewrite !message_or_falsy by assumption. }
  split; [exact Hq|].
  cbn [retryer]. rewrite Hq.
  assert (Hr : retry 0 ("HTTP 401: " ++ m_statusText response) = false).
  { apply retry_auth. unfold auth_error. apply orb_true_iff. right.
    apply (includes_middle "401" "HTTP " (": " ++ m_statusText response)).
    discriminate. }
  by rewrite Hr.
Qed.

End Query.

Lemma unauthorized_is_not_retried_witness :
  complete_config sample_parse stored_client
  = Some (SValue (Some "https://zabbix.example.com/zabbix") (Some "Admin")
                 (Some "zabbix")) /\
  retryer 1 (fun _ => fst (queryFn sample_parse sample_restringify
                                   unauthorized stored_client)) 0
  = Some (Exn "HTTP 401: Unauthorized", []).
Proof.
  split; [reflexivity|].
  exact (proj2 (unauthorized_is_not_retried sample_parse sample_restringify
                  unauthorized stored_client _ _ 0
                  eq_refl eq_refl eq_refl eq_refl eq_refl)).
Defined.

(** With auto-refresh on, values that pass the schema poll every 30000 to
    600000 milliseconds; with auto-refresh off there is no polling. *)
Theorem refetchInterval_bounds (isUrl : string -> bool) (values : ZabbixConfig) :
  valid isUrl values = true ->
  if autoRefresh values
  then exists ms, refetchInterval values = Some (Fin ms) /\
                  (30000 <= ms)%Q /\ (ms <= 600000)%Q
  else refetchInterval values = None.
Proof.
  intros Hv. apply (valid_true_iff isUrl (fun _ => "")) in Hv
    as (_ & _ & _ & Hr).
  unfold refetchInterval. destruct (autoRefresh values); [| reflexivity].
  destruct (refreshInterval values) as [| | |q]; cbn in Hr; try tauto.
  exists (q * 1000)%Q. split; [reflexivity|].
  assert (H30 : (30 <= q)%Q) by (apply Qnot_lt_le; tauto).
  assert (H600 : (q <= 600)%Q) by (apply Qnot_lt_le; tauto).
  split.
  - apply Qle_trans with (30 * 1000)%Q; [discriminate|].
    apply Qmult_le_compat_r; [exact H30 | discriminate].
  - apply Qle_trans with (600 * 1000)%Q; [| discriminate].
    apply Qmult_le_compat_r; [exact H600 | discriminate].
Qed.

Lemma refetchInterval_bounds_witness :
  valid sample_isUrl (sample_config 60) = true /\
  exists ms, refetchInterval (sample_config 60) = Some (Fin ms) /\
             (30000 <= ms)%Q /\ (ms <= 600000)%Q.
Proof.
  split; [reflexivity|].
  exact (refetchInterval_bounds sample_isUrl (sample_config 60) eq_refl).
Defined.

End MetricsQueryProps.

(** ** Loading the saved configuration *)

Module LoadConfigProps.
Import Monitoring MetricsQuery.

Section Load.
Variable Parsed : Type.
Variable JSON_parse : string -> Result Parsed.

(** [loadConfig] never throws, always ends the loading state and touches
    neither local storage nor the network.  A stored text that does not
    parse only adds a line to [console.error]: the page stays unconfigured
    and the form keeps its values.  The page becomes configured only by a
    stored, non-empty text that parses, and the form is then reset with
    what the parser gave. *)
Theorem loadConfig_settles (p : Page Parsed) :
  let r := loadConfig JSON_parse p in
  fst r = Ok tt /\
  isLoading (snd r) = false /\
  localStorage (client (snd r)) = localStorage (client p) /\
  requests (client (snd r)) = requests (client p) /\
  (forall s msg,
      localStorage (client p) !! config_key = Some s -> s <> "" ->
      JSON_parse s = Exn msg ->
      errors (snd r) = (errors p ++ [msg])%list /\
      isConfigured (client (snd r)) = isConfigured (client p) /\
      formValues (snd r) = formValues p) /\
  (isConfigured (client (snd r)) <> isConfigured (client p) ->
   exists s config,
     localStorage (client p) !! config_key = Some s /\ s <> "" /\
     JSON_parse s = Ok config /\ formValues (snd r) = Some config).
Proof.
  unfold loadConfig, try_finally, try_catch, bind, get, call, form_reset,
    page_setIsConfigured, setIsLoading, page_console_error, modify, ret.
  destruct p as [[ls rq ts ic ss fe iv] il fv er].
  cbn [client localStorage].
  destruct (ls !! config_key) as [s|] eqn:Hs.
  2:{ cbn. do 4 (split; [reflexivity|]). split; [intros ? ? [=] | congruence]. }
  destruct (String.eqb_spec s "") as [He|He]; cbn [negb].
  { cbn. do 4 (split; [reflexivity|]).
    split; [intros ? ? [= <-] ?; contradiction | congruence]. }
  destruct (JSON_parse s) as [config|m] eqn:Hp; cbn.
  - do 4 (split; [reflexivity|]). split.
    + intros s' msg [= <-] _ Hm. congruence.
    + intros _. by exists s, config.
  - do 4 (split; [reflexivity|]). split.
    + intros s' msg [= <-] _ Hm. rewrite Hp in Hm. by injection Hm as <-.
    + congruence.
Qed.

(** After a save that passed the connectivity test, loading finds the
    configuration again: the form is reset with what the parser gives for
    the text the save wrote, the page is configured and nothing is written
    to [console.error]. *)
Theorem save_then_load
    (JSON_stringify : ZabbixConfig -> string) (net : Network)
    (config : ZabbixConfig) (c : Client) (parsed : Parsed) :
  test_succeeds net (mkRequest TestConnection (JSON_stringify config)) = true ->
  JSON_stringify config <> "" ->
  JSON_parse (JSON_stringify config) = Ok parsed ->
  let saved := snd (saveConfigMutation_mutate JSON_stringify net config c) in
  let r := loadConfig JSON_parse (mounted saved) in
  formValues (snd r) = Some parsed /\
  isConfigured (client (snd r)) = true /\
  isLoading (snd r) = false /\
  errors (snd r) = [].
Proof.
  intros Htest Hne Hparse saved r. subst r saved.
  unfold test_succeeds in Htest.
  unfold saveConfigMutation_mutate, saveConfig_mutationFn, try_catch, bind,
    fetch, call, setItem, toast, setIsConfigured, setShowSettings,
    invalidateQueries, throw, ret, modify.
  destruct c as [ls rq ts ic ss fe iv]. cbn.
  destruct (net _) as [[o j]|m]; [| discriminate Htest].
  cbn in Htest. subst o. cbn.
  unfold loadConfig, mounted, try_finally, try_catch, bind, get, call,
    form_reset, page_setIsConfigured, setIsLoading, page_console_error,
    modify, ret.
  cbn [client localStorage]. rewrite lookup_insert_eq.
  destruct (String.eqb_spec (JSON_stringify config) ""); [contradiction|].
  cbn [negb]. rewrite Hparse. cbn. by repeat split.
Qed.

End Load.

Lemma save_then_load_witness :
  test_succeeds accepting
    (mkRequest TestConnection (sample_stringify (sample_config 60))) = true /\
  formValues
    (snd (loadConfig sample_parse_config
            (mounted (snd (saveConfigMutation_mutate sample_stringify accepting
                             (sample_config 60) fresh_client)))))
  = Some (sample_config 60).
Proof.
  split; [reflexivity|].
  refine (proj1 (save_then_load ZabbixConfig sample_parse_config
                   sample_stringify accepting (sample_config 60) fresh_client
                   (sample_config 60) eq_refl _ eq_refl)).
  discriminate.
Defined.

End LoadConfigProps.

(** ** What the dashboard computes *)

Module DashboardProps.
Import Monitoring MonitoringProps MetricsQuery Dashboard.

Ltac split_ifs :=
  repeat match goal with
         | |- context [if ?b then _ else _] => destruct b
         end.

(** Label and colour of a severity always go together: two severities get
    the same label exactly when they get the same colour.  A severity that
    is none of 1 to 5 (0, a fraction, 6, NaN) is "Not Classified". *)
Theorem severity_label_matches_colour (s s' : Num) :
  (getSeverityText s = getSeverityText s' <->
   getSeverityColor s = getSeverityColor s') /\
  (getSeverityText s = "Not Classified" <->
   is_number s 5 = false /\ is_number s 4 = false /\ is_number s 3 = false /\
   is_number s 2 = false /\ is_number s 1 = false).
Proof.
  unfold getSeverityText, getSeverityColor. split.
  - destruct (is_number s 5), (is_number s 4), (is_number s 3),
      (is_number s 2), (is_number s 1); split_ifs; split; intros H;
      first [reflexivity | discriminate H].
  - split_ifs; split; intros H; first [discriminate H | tauto | idtac].
    all: try (destruct H as (? & ? & ? & ? & ?); discriminate).
Qed.

Lemma rem_nonneg (a b : Z) : (0 <= a)%Z -> (0 < b)%Z -> Z.rem a b = (a mod b)%Z.
Proof. intros Ha Hb. apply Z.rem_mod_nonneg; lia. Qed.

Ltac div_lia := Z.div_mod_to_equations; lia.

(** For an uptime of zero or more seconds the three parts are the days,
    the hours below 24 and the minutes below 60 of that time, and the
    seconds below a minute are dropped: the uptime is shown as the last
    whole minute before it. *)
Theorem uptime_whole_minutes (seconds : Z) :
  (0 <= seconds)%Z ->
  (seconds = 86400 * days seconds + 3600 * hours seconds
             + 60 * minutes seconds + seconds mod 60)%Z /\
  (0 <= days seconds)%Z /\
  (0 <= hours seconds < 24)%Z /\
  (0 <= minutes seconds < 60)%Z /\
  formatUptime seconds = formatUptime (seconds - seconds mod 60).
Proof.
  intros Hs.
  assert (Hw : (0 <= seconds - seconds mod 60)%Z) by div_lia.
  assert (Hd : days (seconds - seconds mod 60) = days seconds).
  { unfold days. div_lia. }
  assert (Hh : hours (seconds - seconds mod 60) = hours seconds).
  { unfold hours. rewrite !rem_nonneg by lia. div_lia. }
  assert (Hmin : minutes (seconds - seconds mod 60) = minutes seconds).
  { unfold minutes. rewrite !rem_nonneg by lia. div_lia. }
  split; [| split; [| split; [| split]]].
  - unfold days, hours, minutes. rewrite !rem_nonneg by lia. div_lia.
  - unfold days. div_lia.
  - unfold hours. rewrite !rem_nonneg by lia. div_lia.
  - unfold minutes. rewrite !rem_nonneg by lia. div_lia.
  - unfold formatUptime. by rewrite Hd, Hh, Hmin.
Qed.

Lemma uptime_whole_minutes_witness :
  (0 <= 93839)%Z /\
  formatUptime 93839 = "1d 2h 3m" /\
  formatUptime (93839 - 93839 mod 60) = "1d 2h 3m".
Proof.
  split; [lia|].
  destruct (uptime_whole_minutes 93839) as (_ & _ & _ & _ & Heq); [lia|].
  split; [rewrite Heq|]; reflexivity.
Defined.

Lemma severityCount_cons (p : ZabbixProblem) (ps : list ZabbixProblem) (s : Z) :
  severityCount (p :: ps) s
  = (if Z.eqb (severity p) s then 1 else 0) + severityCount ps s.
Proof.
  unfold severityCount. cbn. by destruct (Z.eqb (severity p) s).
Qed.

(** The six rows of the severity card never count a problem twice, and
    when every severity is a whole number from 0 to 5 they add up to the
    number of problems. *)
Theorem severity_rows_add_up (problems : list ZabbixProblem) :
  list_sum (List.map snd (severityRows problems)) <= length problems /\
  (Forall (fun p => (0 <= severity p <= 5)%Z) problems ->
   list_sum (List.map snd (severityRows problems)) = length problems).
Proof.
  unfold severityRows, list_sum. cbn [List.map snd fold_right].
  induction problems as [|p ps [IHle IHeq]].
  - split; reflexivity.
  - rewrite !severityCount_cons. cbn [length].
    split.
    + destruct (Z.eqb_spec (severity p) 5), (Z.eqb_spec (severity p) 4),
        (Z.eqb_spec (severity p) 3), (Z.eqb_spec (severity p) 2),
        (Z.eqb_spec (severity p) 1), (Z.eqb_spec (severity p) 0);
        cbv beta iota; lia.
    + intros Hall. inversion Hall as [|? ? Hp Hps]; subst.
      specialize (IHeq Hps).
      destruct (Z.eqb_spec (severity p) 5), (Z.eqb_spec (severity p) 4),
        (Z.eqb_spec (severity p) 3), (Z.eqb_spec (severity p) 2),
        (Z.eqb_spec (severity p) 1), (Z.eqb_spec (severity p) 0);
        cbv beta iota; lia.
Qed.

(** *** The top of a list of hosts *)

Section Top.
Variable key : ZabbixHost -> option Q.

Lemma insert_desc_perm (x : ZabbixHost) (l : list ZabbixHost) :
  Permutation (insert_desc key x l) (x :: l).
Proof.
  induction l as [|y l IH]; [reflexivity|].
  cbn. destruct (Qle_bool (value key y) (value key x)); [reflexivity|].
  rewrite IH. apply perm_swap.
Qed.

Lemma sort_desc_perm (l : list ZabbixHost) : Permutation (sort_desc key l) l.
Proof.
  induction l as [|x l IH]; [reflexivity|].
  cbn. rewrite insert_desc_perm. by constructor.
Qed.

Lemma insert_desc_sorted (x : ZabbixHost) (l : list ZabbixHost) :
  StronglySorted (descending key) l ->
  StronglySorted (descending key) (insert_desc key x l).
Proof.
  induction l as [|y l IH]; intros Hs; cbn.
  - constructor; constructor.
  - inversion Hs as [|? ? Hl Hy]; subst.
    destruct (Qle_bool (value key y) (value key x)) eqn:Hc.
    + apply Qle_bool_iff in Hc.
      constructor; [exact Hs|]. constructor; [exact Hc|].
      eapply List.Forall_impl; [| exact Hy].
      intros z Hz. unfold descending in *. eapply Qle_trans; eassumption.
    + constructor; [by apply IH|].
      apply (Permutation_Forall (Permutation_sym (insert_desc_perm x l))).
      constructor; [| exact Hy].
      unfold descending. apply Qlt_le_weak. apply Qnot_le_lt.
      intros Hle. apply Qle_bool_iff in Hle. congruence.
Qed.

Lemma sort_desc_sorted (l : list ZabbixHost) :
  StronglySorted (descending key) (sort_desc key l).
Proof.
  induction l as [|x l IH]; [constructor|].
  cbn. by apply insert_desc_sorted.
Qed.

Lemma sorted_app_split (l1 l2 : list ZabbixHost) :
  StronglySorted (descending key) (l1 ++ l2) ->
  StronglySorted (descending key) l1 /\
  forall a b, In a l1 -> In b l2 -> descending key a b.
Proof.
  induction l1 as [|x l1 IH]; cbn; intros Hs.
  - split; [constructor | intros a b []].
  - inversion Hs as [|? ? Hl Hx]; subst.
    destruct (IH Hl) as [Hs1 Hcross]. split.
    + constructor; [exact Hs1|].
      apply List.Forall_app in Hx. tauto.
    + intros a b [<-|Ha] Hb; [| by apply Hcross].
      rewrite List.Forall_forall in Hx. apply Hx.
      apply List.in_or_app. by right.
Qed.

(** The card shows at most [n] hosts, all of them hosts of the list that
    have the number; it shows them in descending order; together with the
    hosts it leaves out they are exactly the hosts that have the number;
    and no host left out has a larger number than a host shown. *)
Theorem topBy_is_the_top (n : nat) (hosts : list ZabbixHost) :
  let shown := topBy key n hosts in
  let rest := belowTop key n hosts in
  length shown = Nat.min n (length (List.filter (has key) hosts)) /\
  Permutation (shown ++ rest) (List.filter (has key) hosts) /\
  (forall h, In h shown -> In h hosts /\ has key h = true) /\
  StronglySorted (descending key) shown /\
  (forall a b, In a shown -> In b rest -> (value key b <= value key a)%Q).
Proof.
  intros shown rest. subst shown rest. unfold topBy, belowTop.
  set (sorted := sort_desc key (List.filter (has key) hosts)).
  assert (Hperm : Permutation sorted (List.filter (has key) hosts))
    by apply sort_desc_perm.
  assert (Hsorted : StronglySorted (descending key)
                      (List.firstn n sorted ++ List.skipn n sorted)).
  { rewrite List.firstn_skipn. apply sort_desc_sorted. }
  apply sorted_app_split in Hsorted as [Hs Hcross].
  split.
  { rewrite List.length_firstn. by rewrite (Permutation_length Hperm). }
  split; [by rewrite List.firstn_skipn|].
  split.
  { intros h Hin.
    assert (Hs' : In h sorted).
    { rewrite <- (List.firstn_skipn n sorted). apply List.in_or_app. by left. }
    apply (Permutation_in _ Hperm) in Hs'. rename Hs' into Hin'.
    clear Hin. rename Hin' into Hin.
    apply List.filter_In in Hin. exact Hin. }
  split; [exact Hs | exact Hcross].
Qed.

End Top.

End DashboardProps.

(** ** The chat widget *)

Module ChatProps.
Import Chat.

(** In every state exactly one of the three blocks is rendered: the button
    while the chat is closed, the window when it is open and the script has
    loaded, the overlay while it is open and the script has not. *)
Theorem one_view_at_a_time (w : Widget) :
  rendered w =
  [ if isOpen w then (if isLoaded w then ChatWindow else LoadingOverlay)
    else ChatButton ] /\
  rendered (toggleChat (toggleChat w)) = rendered w.
Proof. destruct w as [[] [] c]; by split. Qed.

(** The effect never piles up chat elements: whatever the container held,
    after the effect has run with chat open and script loaded it holds the
    one element built from the current props, however often the effect ran
    before and with whatever props; the element always asks to start open.
    Without a container, or while closed or not loaded, nothing changes. *)
Theorem attachChat_replaces (p q : FloatingChatProps) (w : Widget) :
  attachChat p (attachChat q w) = attachChat p w /\
  (container (attachChat p w) = Some [agentChat p] \/ attachChat p w = w) /\
  (container (attachChat p w) <> container w ->
   isOpen w = true /\ isLoaded w = true /\ container w <> None) /\
  In ("start_open", "true") (attributes (agentChat p)).
Proof.
  destruct w as [[] [] [c|]]; cbn; repeat split; auto; try congruence.
  all: unfold agentChat; cbn; auto 10.
Qed.

Lemma count_mount (head : Head) :
  count_occ string_dec (mountScript head) chat_script
  = S (count_occ string_dec head chat_script).
Proof.
  unfold mountScript. rewrite count_occ_app. cbn. apply Nat.add_1_r.
Qed.

Lemma count_unmount (head : Head) :
  count_occ string_dec (unmountScript head) chat_script
  = pred (count_occ string_dec head chat_script).
Proof.
  unfold unmountScript.
  induction head as [|s head IH]; [reflexivity|].
  cbn [remove_first]. destruct (String.eqb_spec s chat_script) as [->|Hne].
  - rewrite count_occ_cons_eq by reflexivity. reflexivity.
  - rewrite !count_occ_cons_neq by exact Hne. exact IH.
Qed.

Lemma unmount_other (head : Head) (src : string) :
  src <> chat_script ->
  count_occ string_dec (unmountScript head) src = count_occ string_dec head src.
Proof.
  intros Hsrc. unfold unmountScript.
  induction head as [|s head IH]; [reflexivity|].
  cbn [remove_first]. destruct (String.eqb_spec s chat_script) as [->|Hne].
  - rewrite count_occ_cons_neq by congruence. reflexivity.
  - destruct (string_dec s src) as [->|Hs].
    + rewrite !count_occ_cons_eq by reflexivity. by rewrite IH.
    + rewrite !count_occ_cons_neq by exact Hs. exact IH.
Qed.

(** Mounting the widget and unmounting it leaves every script of the head
    as often as it was there, the chat script included; when the head had
    no chat script the head is the same list again. *)
Theorem mount_then_unmount (head : Head) :
  (forall src,
      count_occ string_dec (unmountScript (mountScript head)) src
      = count_occ string_dec head src) /\
  (~ In chat_script head -> unmountScript (mountScript head) = head).
Proof.
  split.
  - intros src. destruct (string_dec src chat_script) as [->|Hne].
    + by rewrite count_unmount, count_mount.
    + rewrite unmount_other by exact Hne.
      unfold mountScript. rewrite count_occ_app.
      rewrite count_occ_cons_neq by congruence. cbn [count_occ]. lia.
  - unfold unmountScript, mountScript.
    induction head as [|s head IH]; intros Hnot; [reflexivity|].
    cbn [app remove_first].
    destruct (String.eqb_spec s chat_script) as [->|Hne].
    + exfalso. apply Hnot. by left.
    + f_equal. apply IH. intros Hin. apply Hnot. by right.
Qed.

End ChatProps.
